(** * common: response envelope, model serializer and constant registry

    A shallow embedding of [helper.py] (the [standard_resp] decorator,
    [resp_error] and [Serializer.as_dict]) and of [message.py]
    ([MsgConst] and the module-level [msg_const]), with the parts of the
    Python runtime they call into ([str.isupper], [strftime], [float],
    [json.dumps], [json.loads]).

    Conventions.
    - A Python [str] is a list of Unicode code points.
    - A Python [dict] is an association list in insertion order with
      [str] keys (the only keys this code ever builds); the instance
      dictionary of [MsgConst] is a finite map.
    - A call that may raise returns a [res]: [Ok v] or [Raise e]. *)

From Stdlib Require Import ZArith NArith List String Ascii Bool Lia.
From Stdlib Require Import Decimal DecimalPos DecimalN DecimalFacts.
From stdpp Require Import base option list gmap.

Local Open Scope Z_scope.

(** ** Strings *)

Abbreviation char := N.
Abbreviation str := (list char).

(** An ASCII literal as a [str]. *)
Fixpoint lit (s : string) : str :=
  match s with
  | EmptyString => []
  | String a s' => N_of_ascii a :: lit s'
  end.

(** ** Results of calls that may raise *)

Inductive res (E A : Type) : Type :=
| Ok (a : A)
| Raise (e : E).
Arguments Ok {E A} a.
Arguments Raise {E A} e.

#[global] Instance res_ret {E} : MRet (res E) := fun _ a => Ok a.

#[global] Instance res_bind {E} : MBind (res E) := fun _ _ k r =>
  match r with
  | Ok a => k a
  | Raise e => Raise e
  end.

#[global] Instance res_fmap {E} : FMap (res E) := fun _ _ f r =>
  match r with
  | Ok a => Ok (f a)
  | Raise e => Raise e
  end.

(** Left-to-right traversal: the first failure aborts the loop, as in a
    [for] statement or a comprehension. *)
Definition res_traverse {E A B} (f : A -> res E B) : list A -> res E (list B) :=
  fix go (l : list A) : res E (list B) :=
    match l with
    | [] => Ok []
    | a :: l' => b ← f a; bs ← go l'; Ok (b :: bs)
    end.

(** ** Decimal digits *)

Definition digit_char (d : N) : char := (48 + d)%N.

Fixpoint uint_chars (u : uint) : str :=
  match u with
  | Nil => []
  | D0 u => digit_char 0 :: uint_chars u
  | D1 u => digit_char 1 :: uint_chars u
  | D2 u => digit_char 2 :: uint_chars u
  | D3 u => digit_char 3 :: uint_chars u
  | D4 u => digit_char 4 :: uint_chars u
  | D5 u => digit_char 5 :: uint_chars u
  | D6 u => digit_char 6 :: uint_chars u
  | D7 u => digit_char 7 :: uint_chars u
  | D8 u => digit_char 8 :: uint_chars u
  | D9 u => digit_char 9 :: uint_chars u
  end.

(** [str(n)] for a natural number: decimal, no leading zero. *)
Definition N_repr (n : N) : str := uint_chars (N.to_uint n).

(** [int.__repr__]. *)
Definition int_repr (z : Z) : str :=
  match z with
  | Zneg p => lit "-" ++ N_repr (Npos p)
  | _ => N_repr (Z.to_N z)
  end.

(** [str.zfill]: pad with zeros on the left up to [width] characters. *)
Definition zfill (width : nat) (s : str) : str :=
  replicate (width - length s)%nat (digit_char 0) ++ s.

(** ** The exception classes

    The built-in classes, [json.JSONDecodeError], werkzeug's
    [HTTPException] and [BadRequest],
    the two classes declared inside [MsgConst], and the classes imported
    from [common.exceptions]. [Derived name base] is any other class
    declared with the single base [base]. *)

Inductive exc_class : Type :=
| BaseException | SystemExit | KeyboardInterrupt | GeneratorExit
| Exception
| ArithmeticError | OverflowError | AttributeError | LookupError | KeyError
| OSError | ConnectionError | RuntimeError | TypeError | ValueError
| UnicodeError | UnicodeEncodeError
| JSONDecodeError
| HTTPException | BadRequest
| ConstError | ConstCaseError
| ReturnDataError | InputError | AuthFailureError | NoAccessError
| NotExistError | NotFoundError | InternalError | NeedRecordError
| K8sError | GitError | DevopsBusyError
| Derived (name : str) (base : exc_class).

#[global] Instance exc_class_eq_dec : EqDecision exc_class.
Proof. solve_decision. Defined.

(** Modelled from the spec: [common/exceptions.py] is not among the
    sources. Its eleven classes are taken as direct subclasses of
    [Exception] (the closed set of error kinds of the classification
    table), each carrying the payload attribute [data]. *)
Definition common_exceptions : list exc_class :=
  [ReturnDataError; InputError; AuthFailureError; NoAccessError;
   NotExistError; NotFoundError; InternalError; NeedRecordError;
   K8sError; GitError; DevopsBusyError].

(** The method resolution order of a class: itself and its ancestors. *)
Fixpoint mro (c : exc_class) : list exc_class :=
  match c with
  | BaseException => [BaseException]
  | SystemExit => [SystemExit; BaseException]
  | KeyboardInterrupt => [KeyboardInterrupt; BaseException]
  | GeneratorExit => [GeneratorExit; BaseException]
  | Exception => [Exception; BaseException]
  | ArithmeticError => [ArithmeticError; Exception; BaseException]
  | OverflowError => [OverflowError; ArithmeticError; Exception; BaseException]
  | AttributeError => [AttributeError; Exception; BaseException]
  | LookupError => [LookupError; Exception; BaseException]
  | KeyError => [KeyError; LookupError; Exception; BaseException]
  | OSError => [OSError; Exception; BaseException]
  | ConnectionError => [ConnectionError; OSError; Exception; BaseException]
  | RuntimeError => [RuntimeError; Exception; BaseException]
  | TypeError => [TypeError; Exception; BaseException]
  | ValueError => [ValueError; Exception; BaseException]
  | UnicodeError => [UnicodeError; ValueError; Exception; BaseException]
  | UnicodeEncodeError =>
      [UnicodeEncodeError; UnicodeError; ValueError; Exception; BaseException]
  | JSONDecodeError => [JSONDecodeError; ValueError; Exception; BaseException]
  | HTTPException => [HTTPException; Exception; BaseException]
  | BadRequest => [BadRequest; HTTPException; Exception; BaseException]
  | ConstError => [ConstError; TypeError; Exception; BaseException]
  | ConstCaseError =>
      [ConstCaseError; ConstError; TypeError; Exception; BaseException]
  | Derived name base => Derived name base :: mro base
  | c => [c; Exception; BaseException]
  end.

Definition issubclass (c target : exc_class) : bool :=
  bool_decide (target ∈ mro c).

(** [isinstance(e, (t1, ..., tn))] on the class of [e]. *)
Definition issubclass_any (c : exc_class) (targets : list exc_class) : bool :=
  existsb (issubclass c) targets.

(** ** Dates and times ([datetime.date], [datetime.time], [datetime.datetime]) *)

Record date_t := mk_date { year : N; month : N; day : N }.
Record time_t := mk_time { hour : N; minute : N; second : N; microsecond : N }.
Record datetime_t := mk_datetime { dt_date : date_t; dt_time : time_t }.

(** The broken-down time handed to the C library's [strftime]. *)
Record struct_time := mk_tm
  { tm_year : N; tm_mon : N; tm_mday : N; tm_hour : N; tm_min : N; tm_sec : N }.

Definition date_timetuple (d : date_t) : struct_time :=
  mk_tm (year d) (month d) (day d) 0 0 0.

(** [time.strftime] formats with the date 1900-01-01. *)
Definition time_timetuple (t : time_t) : struct_time :=
  mk_tm 1900 1 1 (hour t) (minute t) (second t).

Definition datetime_timetuple (dt : datetime_t) : struct_time :=
  mk_tm (year (dt_date dt)) (month (dt_date dt)) (day (dt_date dt))
        (hour (dt_time dt)) (minute (dt_time dt)) (second (dt_time dt)).

(** One conversion specification. [%Y] is the year as the C library
    writes it; glibc, on which this is modelled, writes it without
    padding, so that a year below 1000 has fewer than four digits (other
    C libraries pad it; from the year 1000 on all agree). The other
    fields are two digits. *)
Definition strftime_directive (c : char) (t : struct_time) : str :=
  if (c =? 89)%N then N_repr (tm_year t)                  (* %Y *)
  else if (c =? 109)%N then zfill 2 (N_repr (tm_mon t))   (* %m *)
  else if (c =? 100)%N then zfill 2 (N_repr (tm_mday t))  (* %d *)
  else if (c =? 72)%N then zfill 2 (N_repr (tm_hour t))   (* %H *)
  else if (c =? 77)%N then zfill 2 (N_repr (tm_min t))    (* %M *)
  else if (c =? 83)%N then zfill 2 (N_repr (tm_sec t))    (* %S *)
  else if (c =? 37)%N then [37%N]                         (* %% *)
  else [37%N; c].

Fixpoint strftime (fmt : str) (t : struct_time) : str :=
  match fmt with
  | [] => []
  | c :: fmt' =>
      if (c =? 37)%N then
        match fmt' with
        | d :: fmt'' => strftime_directive d t ++ strftime fmt'' t
        | [] => [c]
        end
      else c :: strftime fmt' t
  end.

(** ** Numbers: [decimal.Decimal] and [float] *)

(** A decimal is [(-1)^neg * coeff * 10^exp], an infinity or a NaN. *)
Inductive Decimal : Type :=
| DFinite (neg : bool) (coeff : N) (exp : Z)
| DInfinity (neg : bool)
| DNaN (signaling : bool).

(** An IEEE 754 binary64 value. A finite one is [(-1)^neg * m * 2^e] with
    [m] odd, or [m = 0] and [e = 0]: every finite value has one form. *)
Inductive pyfloat : Type :=
| FNaN
| FInf (neg : bool)
| FFinite (neg : bool) (m : N) (e : Z).

(** Strip the trailing zero bits of a mantissa. *)
Fixpoint strip_zeros (p : positive) (e : Z) : positive * Z :=
  match p with
  | xO p' => strip_zeros p' (e + 1)
  | _ => (p, e)
  end.

Definition canonical (neg : bool) (m : Z) (e : Z) : pyfloat :=
  match m with
  | Zpos p => let '(p', e') := strip_zeros p e in FFinite neg (Npos p') e'
  | _ => FFinite neg 0 0
  end.

(** Round-half-even of the quotient [num / den]. *)
Definition round_half_even (num den : Z) : Z :=
  let q := num / den in
  let r := num mod den in
  if 2 * r <? den then q
  else if den <? 2 * r then q + 1
  else if Z.even q then q else q + 1.

(** The binary64 value nearest to [num / den] (both positive), ties to
    even, as mantissa and exponent; [None] when it is beyond the largest
    finite value. The mantissa has 53 bits down to the exponent -1074,
    below which precision is lost gradually. *)
Definition binary64_of_ratio (num den : Z) : option (Z * Z) :=
  let scaled (e : Z) : Z * Z :=
    if 0 <=? e then (num, den * 2 ^ e) else (num * 2 ^ (- e), den) in
  let e0 := Z.log2 num - Z.log2 den - 52 in
  let e1 := if fst (scaled e0) <? 2 ^ 52 * snd (scaled e0) then e0 - 1 else e0 in
  let e := Z.max e1 (-1074) in
  let m := round_half_even (fst (scaled e)) (snd (scaled e)) in
  let '(m, e) := if m =? 2 ^ 53 then (2 ^ 52, e + 1) else (m, e) in
  if 971 <? e then None else Some (m, e).

(** The binary64 value nearest to [coeff * 10^exp]; [None] on overflow. *)
Definition binary64_of_decimal (coeff : N) (exp : Z) : option (Z * Z) :=
  match coeff with
  | N0 => Some (0, 0)
  | Npos p =>
      if 0 <=? exp then binary64_of_ratio (Zpos p * 10 ^ exp) 1
      else binary64_of_ratio (Zpos p) (10 ^ (- exp))
  end.

Definition float_of_decimal (neg : bool) (coeff : N) (exp : Z) : pyfloat :=
  match binary64_of_decimal coeff exp with
  | Some (m, e) => canonical neg m e
  | None => FInf neg
  end.

#[global] Instance pyfloat_eq_dec : EqDecision pyfloat.
Proof. solve_decision. Defined.

#[global] Instance Decimal_eq_dec : EqDecision Decimal.
Proof. solve_decision. Defined.

(** *** [float.__repr__]: the shortest digit string that reads back *)

Definition num_digits (n : Z) : Z := Z.of_nat (length (N_repr (Z.to_N n))).

(** [floor (log10 (num / den))] for positive [num] and [den]. *)
Definition ilog10 (num den : Z) : Z :=
  if den <=? num then num_digits (num / den) - 1
  else - num_digits ((den + num - 1) / num - 1).

Definition reads_back (D s : Z) (m : N) (e : Z) : bool :=
  match binary64_of_decimal (Z.to_N D) s with
  | Some (m', e') => bool_decide (canonical false m' e' = FFinite false m e)
  | None => false
  end.

(** The two [n]-digit decimals [D * 10^s] around [m * 2^e]; the one that
    reads back as the same float, the nearer one when both do. *)
Definition digits_at (n : Z) (m : N) (e : Z) : option (Z * Z) :=
  let '(num, den) :=
    if 0 <=? e then (Z.of_N m * 2 ^ e, 1) else (Z.of_N m, 2 ^ (- e)) in
  let s := ilog10 num den - n + 1 in
  let '(num', den') :=
    if 0 <=? s then (num, den * 10 ^ s) else (num * 10 ^ (- s), den) in
  let lo := num' / den' in
  let r := num' mod den' in
  let hi := lo + 1 in
  let lo_first := (2 * r <? den') || ((2 * r =? den') && Z.even lo) in
  match reads_back lo s m e, reads_back hi s m e with
  | true, true => Some (if lo_first then lo else hi, s)
  | true, false => Some (lo, s)
  | false, true => Some (hi, s)
  | false, false => if n =? 17 then Some (if lo_first then lo else hi, s) else None
  end.

Fixpoint shortest_digits (ns : list Z) (m : N) (e : Z) : Z * Z :=
  match ns with
  | [] => (0, 0)
  | n :: ns' =>
      match digits_at n m e with
      | Some r => r
      | None => shortest_digits ns' m e
      end
  end.

Fixpoint strip_decimal_zeros (fuel : nat) (D s : Z) : Z * Z :=
  match fuel with
  | O => (D, s)
  | S fuel' =>
      if (D mod 10 =? 0) && negb (D =? 0)
      then strip_decimal_zeros fuel' (D / 10) (s + 1)
      else (D, s)
  end.

Definition zeros (n : Z) : str := replicate (Z.to_nat n) (digit_char 0).

(** Format code ['r']: plain notation when the decimal point falls within
    [-4 < decpt <= 16], exponent notation otherwise. *)
Definition format_repr (ds : str) (decpt : Z) : str :=
  let nd := Z.of_nat (length ds) in
  if (-4 <? decpt) && (decpt <=? 16) then
    if decpt <=? 0 then lit "0." ++ zeros (- decpt) ++ ds
    else if nd <=? decpt then ds ++ zeros (decpt - nd) ++ lit ".0"
    else take (Z.to_nat decpt) ds ++ lit "." ++ drop (Z.to_nat decpt) ds
  else
    let x := decpt - 1 in
    take 1 ds ++ (if 1 <? nd then lit "." ++ drop 1 ds else [])
      ++ lit "e" ++ (if x <? 0 then lit "-" else lit "+")
      ++ zfill 2 (N_repr (Z.to_N (Z.abs x))).

Definition float_repr (f : pyfloat) : str :=
  match f with
  | FNaN => lit "nan"
  | FInf neg => if neg then lit "-inf" else lit "inf"
  | FFinite neg m e =>
      (if neg then lit "-" else []) ++
      match m with
      | N0 => lit "0.0"
      | _ =>
          let '(D, s) := shortest_digits (map Z.of_nat (seq 1 17)) m e in
          let '(D, s) := strip_decimal_zeros 17 D s in
          let ds := N_repr (Z.to_N D) in
          format_repr ds (Z.of_nat (length ds) + s)
      end
  end.

(** *** [float(s)] for a string

    The grammar of the library reference: optional white space and sign,
    then [inf], [infinity] or [nan] in any case, or a decimal number
    with an optional exponent; digits may be grouped by single
    underscores. A string that is not ASCII is first rewritten: every
    decimal digit of any script becomes its ASCII digit and every white
    space beyond ASCII a blank; the first character that is neither
    ends the string with a question mark, so that it is refused. *)

Definition is_digit (c : char) : bool := ((48 <=? c) && (c <=? 57))%N.

Definition is_space (c : char) : bool :=
  ((c =? 32) || ((9 <=? c) && (c <=? 13)))%N.

Definition lower (c : char) : char :=
  if ((65 <=? c) && (c <=? 90))%N then (c + 32)%N else c.

Fixpoint lstrip (s : str) : str :=
  match s with
  | c :: s' => if is_space c then lstrip s' else s
  | [] => []
  end.

Definition strip (s : str) : str := rev (lstrip (rev (lstrip s))).

(** The rest of a digit part: value so far, digits read so far. *)
Fixpoint digitpart_tail (s : str) (acc : N) (cnt : Z) : N * Z * str :=
  match s with
  | c :: s' =>
      if is_digit c then digitpart_tail s' (acc * 10 + (c - 48))%N (cnt + 1)
      else if (c =? 95)%N then
        match s' with
        | d :: s'' =>
            if is_digit d
            then digitpart_tail s'' (acc * 10 + (d - 48))%N (cnt + 1)
            else (acc, cnt, s)
        | [] => (acc, cnt, s)
        end
      else (acc, cnt, s)
  | [] => (acc, cnt, [])
  end.

(** A digit part: at least one digit. Returns value, digit count, rest. *)
Definition digitpart (s : str) : option (N * Z * str) :=
  match s with
  | c :: s' => if is_digit c then Some (digitpart_tail s' (c - 48)%N 1) else None
  | [] => None
  end.

(** [number]: [[digitpart] "." digitpart | digitpart ["."]], as
    coefficient and decimal exponent. *)
Definition float_number (s : str) : option (N * Z * str) :=
  match digitpart s with
  | Some (i, _, rest) =>
      match rest with
      | 46%N :: rest' =>
          match digitpart rest' with
          | Some (f, nf, rest'') => Some ((i * 10 ^ Z.to_N nf + f)%N, - nf, rest'')
          | None => Some (i, 0, rest')
          end
      | _ => Some (i, 0, rest)
      end
  | None =>
      match s with
      | 46%N :: rest' =>
          match digitpart rest' with
          | Some (f, nf, rest'') => Some (f, - nf, rest'')
          | None => None
          end
      | _ => None
      end
  end.

Definition float_exponent (s : str) : option (Z * str) :=
  match s with
  | c :: s' =>
      if ((c =? 101) || (c =? 69))%N then
        let '(neg, s'') :=
          match s' with
          | 45%N :: t => (true, t)
          | 43%N :: t => (false, t)
          | _ => (false, s')
          end in
        match digitpart s'' with
        | Some (x, _, rest) => Some (if neg then - Z.of_N x else Z.of_N x, rest)
        | None => None
        end
      else Some (0, s)
  | [] => Some (0, [])
  end.

Definition float_of_ascii (s : str) : option pyfloat :=
  let s := strip s in
  let '(neg, body) :=
    match s with
    | 45%N :: t => (true, t)
    | 43%N :: t => (false, t)
    | _ => (false, s)
    end in
  let name := map lower body in
  if bool_decide (name = lit "inf") || bool_decide (name = lit "infinity")
  then Some (FInf neg)
  else if bool_decide (name = lit "nan") then Some FNaN
  else
    match float_number body with
    | Some (coeff, e10, rest) =>
        match float_exponent rest with
        | Some (x, []) => Some (float_of_decimal neg coeff (e10 + x))
        | _ => None
        end
    | None => None
    end.

(** The decimal digits beyond ASCII (general category Nd of Unicode
    14.0, the database of CPython 3.11): they come in runs of ten, for
    the values 0 to 9; the first code point of every run. *)
Definition unicode_decimal_runs : list N :=
  [1632; 1776; 1984; 2406; 2534; 2662; 2790; 2918; 3046; 3174; 3302; 3430;
   3558; 3664; 3792; 3872; 4160; 4240; 6112; 6160; 6470; 6608; 6784; 6800;
   6992; 7088; 7232; 7248; 42528; 43216; 43264; 43472; 43504; 43600; 44016;
   65296; 66720; 68912; 69734; 69872; 69942; 70096; 70384; 70736; 70864;
   71248; 71360; 71472; 71904; 72016; 72784; 73040; 73120; 92768; 92864;
   93008; 120782; 120792; 120802; 120812; 120822; 123200; 123632; 125264;
   130032]%N.

(** [Py_UNICODE_TODECIMAL] *)
Definition Py_UNICODE_TODECIMAL (c : char) : option N :=
  if is_digit c then Some (c - 48)%N
  else
    match List.find (fun b => (b <=? c) && (c <? b + 10))%N unicode_decimal_runs with
    | Some b => Some (c - b)%N
    | None => None
    end.

(** [Py_UNICODE_ISSPACE] *)
Definition Py_UNICODE_ISSPACE (c : char) : bool :=
  (((9 <=? c) && (c <=? 13)) || ((28 <=? c) && (c <=? 32))
   || (c =? 133) || (c =? 160) || (c =? 5760)
   || ((8192 <=? c) && (c <=? 8202)) || (c =? 8232) || (c =? 8233)
   || (c =? 8239) || (c =? 8287) || (c =? 12288))%N.

(** [_PyUnicode_TransformDecimalAndSpaceToASCII] on a string that is not
    ASCII. *)
Fixpoint transform_decimal_and_space (s : str) : str :=
  match s with
  | [] => []
  | c :: s' =>
      if (c <? 127)%N then c :: transform_decimal_and_space s'
      else if Py_UNICODE_ISSPACE c then 32%N :: transform_decimal_and_space s'
      else
        match Py_UNICODE_TODECIMAL c with
        | Some d => (48 + d)%N :: transform_decimal_and_space s'
        | None => [63%N]
        end
  end.

Definition float_of_str (s : str) : option pyfloat :=
  float_of_ascii
    (if forallb (fun c => (c <? 128)%N) s then s
     else transform_decimal_and_space s).

(** ** SQLAlchemy column types

    [TIMESTAMP] derives from [DateTime]; [DECIMAL] and [Float] derive
    from [Numeric]; [Date] and [Time] are classes of their own. *)

Module sa.
Inductive type_ : Type :=
| Integer | String | Text | Boolean | LargeBinary
| DateTime | TIMESTAMP | Date | Time
| Numeric | DECIMAL | Float.
End sa.

(** [isinstance(col.type, DateTime)] *)
Definition isinstance_DateTime (t : sa.type_) : bool :=
  match t with
  | sa.DateTime | sa.TIMESTAMP => true
  | _ => false
  end.

(** [isinstance(col.type, Numeric)] *)
Definition isinstance_Numeric (t : sa.type_) : bool :=
  match t with
  | sa.Numeric | sa.DECIMAL | sa.Float => true
  | _ => false
  end.

Record Column := mk_column { col_name : str; col_type : sa.type_ }.

(** ** Python values

    [VRow keys vals] is a result row of a joined query: a tuple of the
    values, of a class derived from [tuple] that names its columns
    ([keys()]). [VModel columns attrs] is an instance of a mapped class:
    the columns of its [__table__] and the values its attributes give
    when read. *)

#[local] Unset Elimination Schemes.
Inductive value : Type :=
| VNone
| VBool (b : bool)
| VInt (z : Z)
| VFloat (f : pyfloat)
| VDecimal (d : Decimal)
| VStr (s : str)
| VDatetime (dt : datetime_t)
| VDate (d : date_t)
| VTime (t : time_t)
| VList (l : list value)
| VTuple (l : list value)
| VDict (items : list (str * value))
| VRow (keys : list str) (vals : list value)
| VModel (columns : list Column) (attrs : list (str * value)).
#[local] Set Elimination Schemes.

(** Induction on values, through the lists nested in them. *)
Section value_ind.
Variable P : value -> Prop.
Hypothesis HNone : P VNone.
Hypothesis HBool : forall b, P (VBool b).
Hypothesis HInt : forall z, P (VInt z).
Hypothesis HFloat : forall f, P (VFloat f).
Hypothesis HDecimal : forall d, P (VDecimal d).
Hypothesis HStr : forall s, P (VStr s).
Hypothesis HDatetime : forall dt, P (VDatetime dt).
Hypothesis HDate : forall d, P (VDate d).
Hypothesis HTime : forall t, P (VTime t).
Hypothesis HList : forall l, Forall P l -> P (VList l).
Hypothesis HTuple : forall l, Forall P l -> P (VTuple l).
Hypothesis HDict : forall d, Forall (fun kv => P (snd kv)) d -> P (VDict d).
Hypothesis HRow : forall keys vals, Forall P vals -> P (VRow keys vals).
Hypothesis HModel :
  forall columns attrs, Forall (fun kv => P (snd kv)) attrs ->
                        P (VModel columns attrs).

Fixpoint value_ind (v : value) : P v :=
  let fix on_list (l : list value) : Forall P l :=
    match l with
    | [] => List.Forall_nil _
    | x :: l' => @List.Forall_cons _ P x l' (value_ind x) (on_list l')
    end in
  let fix on_items (d : list (str * value)) : Forall (fun kv => P (snd kv)) d :=
    match d with
    | [] => List.Forall_nil _
    | kv :: d' => @List.Forall_cons _ (fun kv => P (snd kv)) kv d' (value_ind (snd kv)) (on_items d')
    end in
  match v with
  | VNone => HNone
  | VBool b => HBool b
  | VInt z => HInt z
  | VFloat f => HFloat f
  | VDecimal d => HDecimal d
  | VStr s => HStr s
  | VDatetime dt => HDatetime dt
  | VDate d => HDate d
  | VTime t => HTime t
  | VList l => HList l (on_list l)
  | VTuple l => HTuple l (on_list l)
  | VDict d => HDict d (on_items d)
  | VRow keys vals => HRow keys vals (on_list vals)
  | VModel columns attrs => HModel columns attrs (on_items attrs)
  end.
End value_ind.

(** [bool(v)] *)
Definition truthy (v : value) : bool :=
  match v with
  | VNone => false
  | VBool b => b
  | VInt z => negb (z =? 0)
  | VFloat (FFinite _ 0 _) => false
  | VFloat _ => true
  | VDecimal (DFinite _ 0 _) => false
  | VDecimal _ => true
  | VStr s => negb (bool_decide (s = []))
  | VDatetime _ | VDate _ | VTime _ => true
  | VList l | VTuple l => match l with [] => false | _ => true end
  | VDict items => match items with [] => false | _ => true end
  | VRow _ vals => match vals with [] => false | _ => true end
  | VModel _ _ => true
  end.

(** [float(v)] *)
Definition py_float (v : value) : res exc_class pyfloat :=
  match v with
  | VBool b => Ok (if b then FFinite false 1 0 else FFinite false 0 0)
  | VInt z =>
      match binary64_of_decimal (Z.to_N (Z.abs z)) 0 with
      | Some (m, e) => Ok (canonical (z <? 0) m e)
      | None => Raise OverflowError
      end
  | VFloat f => Ok f
  | VDecimal (DFinite neg coeff exp) => Ok (float_of_decimal neg coeff exp)
  | VDecimal (DInfinity neg) => Ok (FInf neg)
  | VDecimal (DNaN false) => Ok FNaN
  | VDecimal (DNaN true) => Raise ValueError
  | VStr s =>
      match float_of_str s with
      | Some f => Ok f
      | None => Raise ValueError
      end
  | _ => Raise TypeError
  end.

(** ** Dictionaries *)

(** [d[k] = v]: an existing key keeps its place and takes the new value. *)
Fixpoint dict_set (d : list (str * value)) (k : str) (v : value) : list (str * value) :=
  match d with
  | [] => [(k, v)]
  | (k', v') :: d' =>
      if bool_decide (k' = k) then (k, v) :: d' else (k', v') :: dict_set d' k v
  end.

(** [dict(pairs)] *)
Definition dict (pairs : list (str * value)) : list (str * value) :=
  fold_left (fun d kv => dict_set d (fst kv) (snd kv)) pairs [].

Fixpoint dict_get (d : list (str * value)) (k : str) : option value :=
  match d with
  | [] => None
  | (k', v) :: d' => if bool_decide (k' = k) then Some v else dict_get d' k
  end.

(** ** Exceptions raised by the code of this repository and its callers

    [exc_str] is [str(e)]. [exc_data] is the attribute [data], which the
    wrapper reads on the classes of [common.exceptions] only. *)

Record exc := mk_exc { exc_type : exc_class; exc_str : str; exc_data : value }.

Definition isinstance (e : exc) (targets : list exc_class) : bool :=
  issubclass_any (exc_type e) targets.

(** ** message.py *)

(** The Unicode character database beyond ASCII: whether a code point of
    128 or more is a lower-case, upper-case or title-case letter. The
    tables are data of the interpreter; within ASCII the letters are
    fixed below. *)
Record unicode_db := mk_ucd
  { ucd_islower : char -> bool; ucd_isupper : char -> bool; ucd_istitle : char -> bool }.

Definition Py_UNICODE_ISLOWER (ucd : unicode_db) (c : char) : bool :=
  if (c <? 128)%N then ((97 <=? c) && (c <=? 122))%N else ucd_islower ucd c.

Definition Py_UNICODE_ISUPPER (ucd : unicode_db) (c : char) : bool :=
  if (c <? 128)%N then ((65 <=? c) && (c <=? 90))%N else ucd_isupper ucd c.

Definition Py_UNICODE_ISTITLE (ucd : unicode_db) (c : char) : bool :=
  if (c <? 128)%N then false else ucd_istitle ucd c.

(** [str.isupper]: no lower-case or title-case character, and at least
    one upper-case character. [None] is the early [return False]. *)
Definition isupper_step (ucd : unicode_db) (cased : option bool) (ch : char) : option bool :=
  match cased with
  | None => None
  | Some cased =>
      if Py_UNICODE_ISLOWER ucd ch || Py_UNICODE_ISTITLE ucd ch then None
      else if negb cased && Py_UNICODE_ISUPPER ucd ch then Some true
      else Some cased
  end.

Definition isupper (ucd : unicode_db) (s : str) : bool :=
  match fold_left (isupper_step ucd) s (Some false) with
  | Some cased => cased
  | None => false
  end.

(** A database with no letter beyond ASCII, to run the code on ASCII
    names. *)
Definition ascii_ucd : unicode_db :=
  mk_ucd (fun _ => false) (fun _ => false) (fun _ => false).

Module MsgConst.
Section MsgConst.
Context (ucd : unicode_db).

(** [self.__dict__] is threaded through; it comes back unchanged when
  the call raises. *)
Definition __setattr__ (self : gmap str value) (name : str) (value_ : value)
: res exc unit * gmap str value :=
if bool_decide (is_Some (self !! name)) then
  (Raise (mk_exc ConstError (lit "Can't change const." ++ name) VNone), self)
else if negb (isupper ucd name) then
  (Raise (mk_exc ConstCaseError
            (lit "const name " ++ [34%N] ++ name ++ [34%N]
               ++ lit " is not all supercase") VNone), self)
else (Ok (), <[name := value_]> self).

(** A run of assignments, each in its own [try]: a failed assignment
  leaves the object as it was and the run goes on. *)
Definition assign_all (ops : list (str * value)) (self : gmap str value)
: gmap str value :=
fold_left (fun d op => snd (__setattr__ d (fst op) (snd op))) ops self.
End MsgConst.
End MsgConst.

(** The module-level statements of message.py: the first assignment that
    raises aborts the import. *)
Definition APPLICATION_404 : str := [39033; 30446; 25214; 19981; 21040; 20102]%N.
Definition APPLICATION_403 : str := [39033; 30446; 31105; 27490; 35775; 38382]%N.

Definition msg_const (ucd : unicode_db) : res exc unit * gmap str value :=
  let self := ∅ in
  match MsgConst.__setattr__ ucd self (lit "APPLICATION_404") (VStr APPLICATION_404) with
  | (Ok _, self) =>
      MsgConst.__setattr__ ucd self (lit "APPLICATION_403") (VStr APPLICATION_403)
  | r => r
  end.

(** ** [json.dumps] *)

Definition hex_digit (n : N) : char :=
  (if n <? 10 then 48 + n else 87 + n)%N.

Definition hex4 (n : N) : str :=
  [hex_digit (n / 4096 mod 16); hex_digit (n / 256 mod 16);
   hex_digit (n / 16 mod 16); hex_digit (n mod 16)]%N.

(** The two-character escapes of [ESCAPE_DCT]. *)
Definition short_escape (c : char) : option str :=
  if (c =? 92)%N then Some (lit "\\")
  else if (c =? 34)%N then Some [92; 34]%N
  else if (c =? 8)%N then Some (lit "\b")
  else if (c =? 12)%N then Some (lit "\f")
  else if (c =? 10)%N then Some (lit "\n")
  else if (c =? 13)%N then Some (lit "\r")
  else if (c =? 9)%N then Some (lit "\t")
  else None.

(** [ensure_ascii=False]: only the quote, the backslash and the control
    characters below U+0020 are escaped. *)
Definition encode_char (c : char) : str :=
  match short_escape c with
  | Some s => s
  | None => if (c <? 32)%N then lit "\u" ++ hex4 c else [c]
  end.

(** [ensure_ascii=True]: everything outside [' '..'~'] is escaped, beyond
    the basic plane as a surrogate pair. *)
Definition encode_char_ascii (c : char) : str :=
  match short_escape c with
  | Some s => s
  | None =>
      if ((32 <=? c) && (c <=? 126))%N then [c]
      else if (c <? 65536)%N then lit "\u" ++ hex4 c
      else
        let v := (c - 65536)%N in
        lit "\u" ++ hex4 (55296 + (v / 1024) mod 1024)%N
          ++ lit "\u" ++ hex4 (56320 + v mod 1024)%N
  end.

Definition py_encode_basestring (s : str) : str :=
  [34%N] ++ flat_map encode_char s ++ [34%N].

Definition py_encode_basestring_ascii (s : str) : str :=
  [34%N] ++ flat_map encode_char_ascii s ++ [34%N].

(** [float.__repr__], with the three names JSON text uses for the
    values that have no number syntax. *)
Definition floatstr (f : pyfloat) : str :=
  match f with
  | FNaN => lit "NaN"
  | FInf false => lit "Infinity"
  | FInf true => lit "-Infinity"
  | _ => float_repr f
  end.

(** [sep.join(items)] *)
Fixpoint join (sep : str) (items : list str) : str :=
  match items with
  | [] => []
  | [x] => x
  | x :: xs => x ++ sep ++ join sep xs
  end.

(** [int.__repr__] as the encoder calls it: the interpreter refuses to
    write an integer of more than [sys.int_info.default_max_str_digits]
    decimal digits. *)
Definition max_str_digits : N := 4300.

Definition int_digits (z : Z) : N := N.of_nat (length (N_repr (Z.abs_N z))).

Definition int_str (z : Z) : res exc_class str :=
  if (max_str_digits <? int_digits z)%N then Raise ValueError
  else Ok (int_repr z).

(** The encoder with the default separators [", "] and [": "]. Lists and
    tuples, result rows among them, are arrays, dictionaries are
    objects; any other object has no encoding and raises [TypeError].
    (The depth of nesting at which the interpreter's recursion limit
    stops the encoder depends on the call stack and is not modelled.) *)
Fixpoint json_encode (ensure_ascii : bool) (o : value) : res exc_class str :=
  let encode_str :=
    if ensure_ascii then py_encode_basestring_ascii else py_encode_basestring in
  match o with
  | VNone => Ok (lit "null")
  | VBool true => Ok (lit "true")
  | VBool false => Ok (lit "false")
  | VInt z => int_str z
  | VFloat f => Ok (floatstr f)
  | VStr s => Ok (encode_str s)
  | VList l | VTuple l | VRow _ l =>
      items ← res_traverse (json_encode ensure_ascii) l;
      Ok (lit "[" ++ join (lit ", ") items ++ lit "]")
  | VDict d =>
      items ← res_traverse
        (fun kv => t ← json_encode ensure_ascii (snd kv);
                   Ok (encode_str (fst kv) ++ lit ": " ++ t)) d;
      Ok (lit "{" ++ join (lit ", ") items ++ lit "}")
  | _ => Raise TypeError
  end.

Definition json_dumps (obj : value) (ensure_ascii : bool) : res exc_class str :=
  json_encode ensure_ascii obj.

(** ** helper.py: the response wrapper *)

(** [str.encode('utf-8')]: one to four octets for a code point; a
    surrogate has no encoding. (A code point beyond U+10FFFF is in no
    [str].) *)
Abbreviation bytes := (list N).

Definition utf8_char (c : char) : option bytes :=
  (if c <? 128 then Some [c]
   else if c <? 2048 then Some [192 + c / 64; 128 + c mod 64]
   else if c <? 65536 then
     if (55296 <=? c) && (c <=? 57343) then None
     else Some [224 + c / 4096; 128 + c / 64 mod 64; 128 + c mod 64]
   else if c <? 1114112 then
     Some [240 + c / 262144; 128 + c / 4096 mod 64; 128 + c / 64 mod 64;
           128 + c mod 64]
   else None)%N.

Definition str_encode (s : str) : res exc_class bytes :=
  chunks ← res_traverse
    (fun c => match utf8_char c with
              | Some b => Ok b
              | None => Raise UnicodeEncodeError
              end) s;
  Ok (concat chunks).

(** [flask.Response]: body, content type and status. A body given as a
    [str] is encoded as UTF-8 when the response is built, which raises
    [UnicodeEncodeError] on a surrogate; the status of a response built
    without one is 200. *)
Record Response := mk_Response
  { response : bytes; content_type : str; status_code : Z }.

Definition Response_new (body : str) (content_type : str)
  : res exc_class Response :=
  data ← str_encode body;
  Ok (mk_Response data content_type 200).

(** What a wrapped view returns: the pair [(body, status)] of
    [resp_error], or a [Response] object. *)
Inductive view_return : Type :=
| BodyStatus (body : value) (status : Z)
| ResponseObject (r : Response).

(** [resp_error]: the trace printed by [traceback.print_exc] goes to the
    standard error stream and is no part of the value returned. *)
Definition resp_error (status : Z) (msg : str) (data : value) : view_return :=
  BodyStatus
    (VDict [(lit "status", VInt status); (lit "msg", VStr msg); (lit "data", data)])
    status.

Section standard_resp.
Context {args : Type}.

(** [func] is the wrapped callable: applied to its arguments it returns
    a value or raises. The [except] clauses are tried in order; an
    exception none of them matches leaves the wrapper, and so does one
    raised by [json.dumps] or by [Response], which run after the [try]
    statement. *)
Definition standard_resp (func : args -> res exc value)
  : args -> res exc_class view_return :=
  fun a =>
    match func a with
    | Raise e =>
        if isinstance e [ReturnDataError; InputError] then
          Ok (resp_error 400 (exc_str e) (exc_data e))
        else if isinstance e [AuthFailureError] then
          Ok (resp_error 401 (exc_str e) (exc_data e))
        else if isinstance e [NoAccessError] then
          Ok (resp_error 403 (exc_str e) (exc_data e))
        else if isinstance e [NotExistError; NotFoundError] then
          Ok (resp_error 404 (exc_str e) (exc_data e))
        else if isinstance e [ConnectionError; TypeError; BadRequest] then
          Ok (resp_error 500 (exc_str e) VNone)
        else if isinstance e
                  [InternalError; NeedRecordError; K8sError; GitError;
                   DevopsBusyError] then
          Ok (resp_error 500 (exc_str e) (exc_data e))
        else if isinstance e [Exception] then
          Ok (resp_error 500 (exc_str e) VNone)
        else Raise (exc_type e)
    | Ok result =>
        body ← json_dumps
                 (VDict [(lit "code", VInt 200); (lit "result", result)]) false;
        r ← Response_new body (lit "application/json");
        Ok (ResponseObject r)
    end.
End standard_resp.

(** ** helper.py: the serializer *)

Module Serializer.

(** [type(_r) in time_type] *)
Definition in_time_type (v : value) : bool :=
  match v with
  | VDatetime _ | VDate _ | VTime _ => true
  | _ => false
  end.

(** A value that is none of the three falls off the end of the
    function, which then returns [None]. *)
Definition convert_datetime (v : value) : value :=
  match v with
  | VDatetime dt =>
      VStr (strftime (lit "%Y-%m-%d %H:%M:%S") (datetime_timetuple dt))
  | VDate d => VStr (strftime (lit "%Y-%m-%d") (date_timetuple d))
  | VTime t => VStr (strftime (lit "%H:%M:%S") (time_timetuple t))
  | _ => VNone
  end.

(** [r.keys()] and the values [r] iterates over. A dictionary iterates
    over its keys; an object without [keys] raises [AttributeError]. *)
Definition keys_and_items (r : value) : res exc_class (list str * list value) :=
  match r with
  | VRow keys vals => Ok (keys, vals)
  | VDict items => Ok (map fst items, map (fun kv => VStr (fst kv)) items)
  | _ => Raise AttributeError
  end.

(** [dict(zip(r.keys(), (convert_datetime(_r) if type(_r) in time_type
    else _r for _r in r)))] *)
Definition row_to_dict (r : value) : res exc_class value :=
  '(keys, vals) ← keys_and_items r;
  Ok (VDict (dict (zip keys
       (map (fun _r => if in_time_type _r then convert_datetime _r else _r)
            vals)))).

Definition result_to_dict (results : list value) : res exc_class (list value) :=
  res_traverse row_to_dict results.

(** [getattr(_model, name)]: the value the attribute gives, or
    [AttributeError] when the instance has no such attribute. (An
    attribute whose reading fails inside the ORM, as on a detached
    instance, is not represented in [VModel].) *)
Definition getattr (attrs : list (str * value)) (name : str) : res exc_class value :=
  match dict_get attrs name with
  | Some v => Ok v
  | None => Raise AttributeError
  end.

(** The body of the loop of [model_to_dict] for one column. *)
Definition column_item (attrs : list (str * value)) (col : Column)
  : res exc_class (str * value) :=
  if isinstance_DateTime (col_type col) then
    v ← getattr attrs (col_name col);
    Ok (col_name col, convert_datetime v)
  else if isinstance_Numeric (col_type col) then
    v ← getattr attrs (col_name col);
    f ← py_float v;
    Ok (col_name col, VFloat f)
  else
    v ← getattr attrs (col_name col);
    Ok (col_name col, v).

(** The pairs the generator yields, in column order, up to the first
    one that raises. An object without [__table__] raises
    [AttributeError]. *)
Definition model_to_dict (_model : value) : res exc_class (list (str * value)) :=
  match _model with
  | VModel columns attrs => res_traverse (column_item attrs) columns
  | _ => Raise AttributeError
  end.

(** [isinstance(x, Model)] *)
Definition isinstance_Model (x : value) : bool :=
  match x with
  | VModel _ _ => true
  | _ => false
  end.

(** The [for] loop over a list of entities, appending to [res_]. *)
Fixpoint models_loop (models : list value) (res_ : list value)
  : res exc_class (list value) :=
  match models with
  | [] => Ok res_
  | model :: models' =>
      _model ← model_to_dict model;
      let _res := VDict (dict _model) in
      models_loop models' (res_ ++ [_res])
  end.

Definition as_dict (models : value) : res exc_class value :=
  match models with
  | VList l =>
      match l with
      | [] => Ok (VList [])
      | first :: _ =>
          if isinstance_Model first then VList <$> models_loop l []
          else VList <$> result_to_dict l
      end
  | VModel _ _ => (fun g => VDict (dict g)) <$> model_to_dict models
  | _ => if truthy models then row_to_dict models else Ok VNone
  end.

End Serializer.

(** ** [json.loads]

    The decoder of the standard library: [scanstring] for string
    literals, the number pattern, the three names and the constants
    [NaN], [Infinity] and [-Infinity], arrays and objects. Nested values
    and the element loops take one unit of [fuel] per call; [json_loads]
    supplies more than the length of the text. A failure to scan is
    [JSONDecodeError]; an integer of more than [max_str_digits] digits
    makes [int] raise [ValueError]. *)







(** The longest prefix of digits. *)
Fixpoint span_digits (s : str) : str * str :=
  match s with
  | c :: s' =>
      if is_digit c then let '(ds, rest) := span_digits s' in (c :: ds, rest)
      else ([], s)
  | [] => ([], [])
  end.

Fixpoint chars_uint (ds : str) : uint :=
  match ds with
  | [] => Nil
  | c :: ds' =>
      let u := chars_uint ds' in
      match (c - 48)%N with
      | 0%N => D0 u | 1%N => D1 u | 2%N => D2 u | 3%N => D3 u | 4%N => D4 u
      | 5%N => D5 u | 6%N => D6 u | 7%N => D7 u | 8%N => D8 u | _ => D9 u
      end
  end.

(** [int(ds)] for a string of digits. *)
Definition int_of_digits (ds : str) : N := N.of_uint (chars_uint ds).






(** ** The specification's side

    Definitions that follow the words of the specification, to be
    compared with the code above. *)

(** The failure-kind table of §4.1: the status of a kind and whether the
    body carries the payload. An unlisted class has no entry. *)
Definition classification_table (kind : exc_class) : option (Z * bool) :=
  match kind with
  | ReturnDataError | InputError => Some (400, true)
  | AuthFailureError => Some (401, true)
  | NoAccessError => Some (403, true)
  | NotExistError | NotFoundError => Some (404, true)
  | ConnectionError | TypeError | BadRequest => Some (500, false)
  | InternalError | NeedRecordError | K8sError | GitError | DevopsBusyError =>
      Some (500, true)
  | _ => None
  end.

(** The error envelope [{status, msg, data}]. *)
Definition error_envelope (status : Z) (msg : str) (data : value) : value :=
  VDict [(lit "status", VInt status); (lit "msg", VStr msg); (lit "data", data)].


(** Every class the [except] clauses before the last one name. *)
Definition classified : list exc_class :=
  [ReturnDataError; InputError; AuthFailureError; NoAccessError;
   NotExistError; NotFoundError; ConnectionError; TypeError; BadRequest;
   InternalError; NeedRecordError; K8sError; GitError; DevopsBusyError].










(** The three fixed formats, digit by digit: [YYYY-MM-DD],
    [HH:MM:SS] and the two with a blank between them. *)
Definition two_digits (n : N) : str := [48 + n / 10; 48 + n mod 10]%N.

Definition four_digits (n : N) : str :=
  [48 + n / 1000; 48 + n / 100 mod 10; 48 + n / 10 mod 10; 48 + n mod 10]%N.

Definition format_date (d : date_t) : str :=
  four_digits (year d) ++ lit "-" ++ two_digits (month d) ++ lit "-"
    ++ two_digits (day d).

Definition format_time (t : time_t) : str :=
  two_digits (hour t) ++ lit ":" ++ two_digits (minute t) ++ lit ":"
    ++ two_digits (second t).

Definition format_datetime (dt : datetime_t) : str :=
  format_date (dt_date dt) ++ lit " " ++ format_time (dt_time dt).

(** Normalization by runtime type: a datetime, a date or a time becomes
    its fixed-format string, anything else is passed through. *)
Definition normalize_temporal (v : value) : value :=
  match v with
  | VDatetime dt => VStr (format_datetime dt)
  | VDate d => VStr (format_date d)
  | VTime t => VStr (format_time t)
  | _ => v
  end.

(** The field ranges the constructors of [datetime.date] and
    [datetime.time] accept, from the year 1000 on, where every C library
    writes the year in four digits. *)
Definition valid_date (d : date_t) : bool :=
  ((1000 <=? year d) && (year d <=? 9999) && (1 <=? month d) && (month d <=? 12)
   && (1 <=? day d) && (day d <=? 31))%N.

Definition valid_time (t : time_t) : bool :=
  ((hour t <=? 23) && (minute t <=? 59) && (second t <=? 59)
   && (microsecond t <=? 999999))%N.

(** A value that is no datetime, date or time, or one within these
    ranges. *)
Definition temporal_valid (v : value) : bool :=
  match v with
  | VDatetime dt => valid_date (dt_date dt) && valid_time (dt_time dt)
  | VDate d => valid_date d
  | VTime t => valid_time t
  | _ => true
  end.

(** A mapping built from named columns: every name once, in the order of
    first occurrence, holding the value of the last column of that
    name. *)
Fixpoint last_value (k : str) (pairs : list (str * value)) : option value :=
  match pairs with
  | [] => None
  | (k', v) :: rest =>
      match last_value k rest with
      | Some w => Some w
      | None => if bool_decide (k' = k) then Some v else None
      end
  end.

Fixpoint first_occurrences (seen names : list str) : list str :=
  match names with
  | [] => []
  | k :: names' =>
      if bool_decide (k ∈ seen) then first_occurrences seen names'
      else k :: first_occurrences (seen ++ [k]) names'
  end.

Definition columns_mapping (pairs : list (str * value)) : list (str * value) :=
  map (fun k => (k, default VNone (last_value k pairs)))
      (first_occurrences [] (map fst pairs)).

(** A joined-query row: its column names and its values. *)
Definition row_mapping (r : list str * list value) : value :=
  VDict (columns_mapping (zip (fst r) (map normalize_temporal (snd r)))).

(** The entity path for one element of a list: its field mapping. *)
Definition entity_to_dict (model : value) : res exc_class value :=
  (fun g => VDict (dict g)) <$> Serializer.model_to_dict model.

(** A column the entity path can read: the attribute is there, and a
    Numeric column holds a value [float] accepts. *)
Definition readable (attrs : list (str * value)) (col : Column) : bool :=
  match dict_get attrs (col_name col) with
  | Some v =>
      if isinstance_DateTime (col_type col) then true
      else if isinstance_Numeric (col_type col) then
        match py_float v with Ok _ => true | Raise _ => false end
      else true
  | None => false
  end.

(** What the entity path puts under the name of a readable column. *)
Definition rendered (attrs : list (str * value)) (col : Column) : value :=
  match dict_get attrs (col_name col) with
  | Some v =>
      if isinstance_DateTime (col_type col) then Serializer.convert_datetime v
      else if isinstance_Numeric (col_type col) then
        match py_float v with Ok f => VFloat f | Raise _ => VNone end
      else v
  | None => VNone
  end.

Definition field_mapping (columns : list Column) (attrs : list (str * value)) : value :=
  VDict (dict (map (fun col => (col_name col, rendered attrs col)) columns)).


(** The text of the success envelope around the text [t] of the result. *)
Definition quoted (s : string) : str := [34%N] ++ lit s ++ [34%N].


(** ** Notions the further properties are stated with *)

(** What may follow the text of an integer without being read as part of
    the number: the end of the text, or a character that is no digit, no
    point and no exponent mark. *)
Definition number_end (rest : str) : bool :=
  match rest with
  | [] => true
  | c :: _ => negb (is_digit c || (c =? 46) || (c =? 101) || (c =? 69))%N
  end.

Definition all_digits (ds : str) : Prop := Forall (fun c => is_digit c = true) ds.


(** What follows the first item of a joined text. *)
Definition more (items : list str) : str :=
  match items with
  | [] => []
  | _ => lit ", " ++ join (lit ", ") items
  end.




(** A character [str.isupper] refuses: a lower-case or title-case
    letter. *)
Definition lower_or_title (ucd : unicode_db) (c : char) : bool :=
  Py_UNICODE_ISLOWER ucd c || Py_UNICODE_ISTITLE ucd c.

(** The statuses the [except] clauses answer with. *)
Definition error_statuses : list Z := [400; 401; 403; 404; 500].

(** A class this development names, as opposed to one a caller derives
    from them. *)
Definition builtin_class (c : exc_class) : bool :=
  match c with Derived _ _ => false | _ => true end.

Definition is_dict (v : value) : bool :=
  match v with VDict _ => true | _ => false end.

(** What [as_dict] takes as one record when it stands alone: not a
    list, and not falsy. *)
Definition one_record (x : value) : bool :=
  match x with
  | VList _ => false
  | _ => truthy x
  end.

(** The three fixed formats by the runtime type of a value; [None] for
    a value of any other type. *)
Definition temporal_text (v : value) : value :=
  match v with
  | VDatetime dt => VStr (format_datetime dt)
  | VDate d => VStr (format_date d)
  | VTime t => VStr (format_time t)
  | _ => VNone
  end.

(** What the code writes for a date, a time and a datetime: the year
    as it is, the other fields padded to two digits. *)
Definition pad (width : nat) (n : N) : str := zfill width (N_repr n).

Definition written_date (d : date_t) : str :=
  N_repr (year d) ++ lit "-" ++ pad 2 (month d) ++ lit "-" ++ pad 2 (day d).

Definition written_time (t : time_t) : str :=
  pad 2 (hour t) ++ lit ":" ++ pad 2 (minute t) ++ lit ":" ++ pad 2 (second t).

Definition written_datetime (dt : datetime_t) : str :=
  written_date (dt_date dt) ++ lit " " ++ written_time (dt_time dt).

(** The decimal numeral with the digit [k] in front of the numeral
    [u]. *)
Definition digit_uint (k : N) (u : uint) : uint :=
  match k with
  | 0 => D0 u | 1 => D1 u | 2 => D2 u | 3 => D3 u | 4 => D4 u
  | 5 => D5 u | 6 => D6 u | 7 => D7 u | 8 => D8 u | _ => D9 u
  end%N.

(** The conversion the raw-row path applies to a value of a row. *)
Definition converted (x : value) : value :=
  if Serializer.in_time_type x then Serializer.convert_datetime x else x.




(** A text with no control character (no code point below U+0020). *)
Definition no_control (t : str) : Prop := Forall (fun c => (32 <= c)%N) t.

(** ** Facts about the embedding *)

(** Replace every literal by the list of its code points. *)
Ltac eval_lits :=
  repeat match goal with
         | |- context [lit ?s] =>
             let x := eval vm_compute in (lit s) in change (lit s) with x
         end.


(** Bring nested concatenations to the right-nested form. *)
Ltac norm_app :=
  repeat (progress (rewrite <- ?app_assoc, ?app_nil_r; cbn [app])).

(** *** The response wrapper *)

Lemma isinstance_own_class (e : exc) (targets : list exc_class) :
  exc_type e ∈ targets -> isinstance e targets = true.
Proof.
  intros Hin. unfold isinstance, issubclass_any.
  apply existsb_exists. exists (exc_type e). split.
  - by apply list_elem_of_In.
  - unfold issubclass. apply bool_decide_eq_true.
    destruct (exc_type e); simpl; left.
Qed.

(** C1. A failure whose class is listed in the classification table is
    answered with the status of the table and the body
    [{status, msg, data}], where [msg] is the failure's message and
    [data] its payload, or null for the kinds the table gives no
    payload. *)
Theorem standard_resp_classification {args : Type}
    (func : args -> res exc value) (a : args) (e : exc)
    (status : Z) (with_data : bool) :
  func a = Raise e ->
  classification_table (exc_type e) = Some (status, with_data) ->
  standard_resp func a =
    Ok (BodyStatus
          (error_envelope status (exc_str e)
             (if with_data then exc_data e else VNone))
          status).
Proof.
  intros Hraise Htable. unfold standard_resp. rewrite Hraise.
  unfold isinstance.
  destruct (exc_type e); simpl in Htable; try discriminate;
    injection Htable as <- <-; reflexivity.
Qed.

Lemma standard_resp_classification_witness :
  standard_resp
    (fun _ : unit => Raise (mk_exc NoAccessError (lit "forbidden") (VInt 7))) tt =
    Ok (BodyStatus (error_envelope 403 (lit "forbidden") (VInt 7)) 403).
Proof.
  apply (standard_resp_classification
           (fun _ : unit => Raise (mk_exc NoAccessError (lit "forbidden") (VInt 7)))
           tt (mk_exc NoAccessError (lit "forbidden") (VInt 7)) 403 true);
    reflexivity.
Defined.

(** A class derived from a listed one is answered as its ancestor is;
    here a class of the caller's own below [NoAccessError]. *)
Example standard_resp_derived_class :
  standard_resp
    (fun _ : unit =>
       Raise (mk_exc (Derived (lit "Banned") NoAccessError) (lit "no") VNone)) tt =
    Ok (BodyStatus (error_envelope 403 (lit "no") VNone) 403).
Proof. reflexivity. Qed.

(** The two exceptions of message.py are [TypeError]s: status 500 and no
    payload. *)
Example standard_resp_ConstError :
  standard_resp
    (fun _ : unit => Raise (mk_exc ConstCaseError (lit "lower") (VInt 1))) tt =
    Ok (BodyStatus (error_envelope 500 (lit "lower") VNone) 500).
Proof. reflexivity. Qed.

Lemma isinstance_mono (e : exc) (l l' : list exc_class) :
  l ⊆ l' -> isinstance e l = true -> isinstance e l' = true.
Proof.
  unfold isinstance, issubclass_any. intros Hsub Hl.
  apply existsb_exists in Hl as (c & Hc & Hsubclass).
  apply existsb_exists. exists c. split; [|done].
  apply list_elem_of_In, Hsub, list_elem_of_In, Hc.
Qed.

Lemma classified_clause (e : exc) (l : list exc_class) :
  l ⊆ classified -> isinstance e l = true -> isinstance e classified = false ->
  False.
Proof.
  intros Hsub Hl Hn. rewrite (isinstance_mono e l classified Hsub Hl) in Hn.
  discriminate.
Qed.

Lemma issubclass_Derived (name : str) (base K : exc_class) :
  builtin_class K = true ->
  issubclass (Derived name base) K = issubclass base K.
Proof.
  intros HK. unfold issubclass. cbn [mro].
  apply bool_decide_ext. rewrite elem_of_cons.
  split; [|by right]. intros [->|H]; [done|done].
Qed.

Lemma issubclass_any_Derived (name : str) (base : exc_class) (l : list exc_class) :
  forallb builtin_class l = true ->
  issubclass_any (Derived name base) l = issubclass_any base l.
Proof.
  unfold issubclass_any. induction l as [|K l IH]; [done|].
  cbn [forallb existsb]. intros [HK Hl]%andb_true_iff.
  by rewrite issubclass_Derived, IH.
Qed.

(** A class that does not derive from [Exception] derives from none of
    the classified ones. *)
Lemma outside_Exception_unclassified (c : exc_class) :
  issubclass c Exception = false -> issubclass_any c classified = false.
Proof.
  induction c; try (vm_compute; congruence).
  rewrite issubclass_Derived by done.
  by rewrite issubclass_any_Derived by done.
Qed.

(** C3, as the code has it. A failure that is an instance of
    [Exception] never leaves the wrapper: it is answered with some
    status and its message; when its class is below none of the
    classified ones the status is 500 and the payload is null. A failure
    that is no instance of [Exception] matches no clause and leaves the
    wrapper as it is. *)
Theorem standard_resp_catches_Exception {args : Type}
    (func : args -> res exc value) (a : args) (e : exc) :
  func a = Raise e ->
  (isinstance e [Exception] = true ->
   exists status data,
     standard_resp func a =
       Ok (BodyStatus (error_envelope status (exc_str e) data) status)
     /\ (isinstance e classified = false -> status = 500 /\ data = VNone))
  /\ (isinstance e [Exception] = false ->
      standard_resp func a = Raise (exc_type e)).
Proof.
  intros Hraise. split; intros Hexc; unfold standard_resp; rewrite Hraise, Hexc.
  - repeat match goal with
           | |- context [if isinstance e ?l then _ else _] =>
               let H := fresh "Hclause" in
               destruct (isinstance e l) eqn:H;
               [ eexists _, _; split; [reflexivity|];
                 intros Hn;
                 first [ split; reflexivity
                       | exfalso; apply (classified_clause e l); [|done..];
                         apply (bool_decide_unpack _); vm_compute; exact I ]
               | ]
           end.
    eexists _, _. split; [reflexivity | done].
  - assert (Hc : isinstance e classified = false).
    { unfold isinstance in *. apply outside_Exception_unclassified.
      cbn [issubclass_any existsb] in Hexc. by rewrite orb_false_r in Hexc. }
    repeat match goal with
           | |- context [if isinstance e ?l then _ else _] =>
               let H := fresh "Hclause" in
               destruct (isinstance e l) eqn:H;
               [ exfalso; apply (classified_clause e l); [|done..];
                 apply (bool_decide_unpack _); vm_compute; exact I
               | ]
           end.
    reflexivity.
Qed.

Lemma standard_resp_catches_Exception_witness :
  (exists status data,
     standard_resp
       (fun _ : unit => Raise (mk_exc KeyError (lit "'id'") VNone)) tt =
       Ok (BodyStatus (error_envelope status (lit "'id'") data) status)
     /\ (isinstance (mk_exc KeyError (lit "'id'") VNone) classified = false ->
         status = 500 /\ data = VNone))
  /\ standard_resp
       (fun _ : unit => Raise (mk_exc KeyboardInterrupt [] VNone)) tt =
       Raise KeyboardInterrupt.
Proof.
  split.
  - apply (proj1 (standard_resp_catches_Exception
                    (fun _ : unit => Raise (mk_exc KeyError (lit "'id'") VNone)) tt
                    (mk_exc KeyError (lit "'id'") VNone) eq_refl)).
    reflexivity.
  - apply (proj2 (standard_resp_catches_Exception
                    (fun _ : unit => Raise (mk_exc KeyboardInterrupt [] VNone)) tt
                    (mk_exc KeyboardInterrupt [] VNone) eq_refl)).
    reflexivity.
Defined.

(** An exception that is not an instance of [Exception] matches no
    clause and leaves the wrapper: here the [SystemExit] of a handler
    that calls [sys.exit]. *)
Lemma standard_resp_SystemExit_propagates :
  standard_resp (fun _ : unit => Raise (mk_exc SystemExit (lit "1") VNone)) tt =
    Raise SystemExit
  /\ ~ (exists r,
         standard_resp
           (fun _ : unit => Raise (mk_exc SystemExit (lit "1") VNone)) tt = Ok r).
Proof.
  split; [reflexivity|]. intros [r Hr]. discriminate Hr.
Qed.

(** *** The constant registry *)

Section MsgConst_facts.
Context (ucd : unicode_db).
Implicit Types (self : gmap str value) (name : str) (v : value).

Lemma setattr_taken self name v :
  is_Some (self !! name) ->
  MsgConst.__setattr__ ucd self name v =
    (Raise (mk_exc ConstError (lit "Can't change const." ++ name) VNone), self).
Proof.
  intros Hsome. unfold MsgConst.__setattr__.
  by rewrite bool_decide_eq_true_2.
Qed.

Lemma setattr_not_upper self name v :
  self !! name = None -> isupper ucd name = false ->
  MsgConst.__setattr__ ucd self name v =
    (Raise (mk_exc ConstCaseError
              (lit "const name " ++ [34%N] ++ name ++ [34%N]
                 ++ lit " is not all supercase") VNone), self).
Proof.
  intros Hnone Hcase. unfold MsgConst.__setattr__.
  rewrite bool_decide_eq_false_2, Hcase; [done|].
  rewrite Hnone. by intros [? ?].
Qed.

Lemma setattr_fresh self name v :
  self !! name = None -> isupper ucd name = true ->
  MsgConst.__setattr__ ucd self name v = (Ok (), <[name := v]> self).
Proof.
  intros Hnone Hcase. unfold MsgConst.__setattr__.
  rewrite bool_decide_eq_false_2, Hcase; [done|].
  rewrite Hnone. by intros [? ?].
Qed.

Lemma setattr_raise_unchanged self name v e self' :
  MsgConst.__setattr__ ucd self name v = (Raise e, self') -> self' = self.
Proof.
  unfold MsgConst.__setattr__.
  destruct (bool_decide _); [congruence|].
  destruct (negb _); congruence.
Qed.

(** A key that holds a value holds it after any further call. *)
Lemma setattr_keeps self name v k v0 :
  self !! k = Some v0 ->
  snd (MsgConst.__setattr__ ucd self name v) !! k = Some v0.
Proof.
  intros Hk. unfold MsgConst.__setattr__.
  destruct (bool_decide (is_Some (self !! name))) eqn:Htaken; [done|].
  destruct (negb _); [done|]. simpl.
  apply bool_decide_eq_false in Htaken.
  rewrite lookup_insert_ne; [done|].
  intros ->. apply Htaken. by exists v0.
Qed.

Lemma assign_all_keeps ops self k v0 :
  self !! k = Some v0 -> MsgConst.assign_all ucd ops self !! k = Some v0.
Proof.
  revert self. induction ops as [|[name v] ops IH]; intros self Hk; [done|].
  unfold MsgConst.assign_all in *. cbn [fold_left fst snd].
  apply IH. by apply setattr_keeps.
Qed.

Lemma setattr_ok_inv self name v self' :
  MsgConst.__setattr__ ucd self name v = (Ok (), self') ->
  self !! name = None /\ isupper ucd name = true /\ self' = <[name := v]> self.
Proof.
  unfold MsgConst.__setattr__.
  destruct (bool_decide (is_Some (self !! name))) eqn:Htaken; [done|].
  apply bool_decide_eq_false in Htaken.
  destruct (isupper ucd name); [|done]. intros [= <-].
  split_and!; [|done..].
  destruct (self !! name) eqn:Hl; [|done]. destruct Htaken. by eexists.
Qed.

(** C4. A write to a key that holds a value is rejected with
    [ConstError]; a first write to a key that is not upper-case is
    rejected with [ConstCaseError]; a rejected write stores nothing;
    and the value of a successful write, which is a first write to an
    upper-case key, stays under its key through every later write. *)
Theorem MsgConst_write_once self name v :
  (is_Some (self !! name) ->
   MsgConst.__setattr__ ucd self name v =
     (Raise (mk_exc ConstError (lit "Can't change const." ++ name) VNone), self))
  /\ (self !! name = None -> isupper ucd name = false ->
      MsgConst.__setattr__ ucd self name v =
        (Raise (mk_exc ConstCaseError
                  (lit "const name " ++ [34%N] ++ name ++ [34%N]
                     ++ lit " is not all supercase") VNone), self))
  /\ (forall e self',
        MsgConst.__setattr__ ucd self name v = (Raise e, self') -> self' = self)
  /\ (forall self',
        MsgConst.__setattr__ ucd self name v = (Ok (), self') ->
        self !! name = None /\ isupper ucd name = true /\
        forall ops, MsgConst.assign_all ucd ops self' !! name = Some v).
Proof.
  split_and!.
  - apply setattr_taken.
  - apply setattr_not_upper.
  - intros e self'. apply setattr_raise_unchanged.
  - intros self' Hok.
    destruct (setattr_ok_inv _ _ _ _ Hok) as (Hnone & Hcase & ->).
    split_and!; [done..|].
    intros ops. apply assign_all_keeps, lookup_insert_eq.
Qed.
End MsgConst_facts.

(** The two assignments of message.py succeed whatever the letters
    beyond ASCII are, and leave the two messages under their keys. *)
Lemma msg_const_initialised (ucd : unicode_db) :
  fst (msg_const ucd) = Ok ()
  /\ snd (msg_const ucd) !! lit "APPLICATION_404" = Some (VStr APPLICATION_404)
  /\ snd (msg_const ucd) !! lit "APPLICATION_403" = Some (VStr APPLICATION_403).
Proof. split_and!; reflexivity. Qed.

(** Setting [APPLICATION_404] a second time raises [ConstError]. *)
Lemma MsgConst_write_once_witness :
  MsgConst.__setattr__ ascii_ucd (snd (msg_const ascii_ucd))
    (lit "APPLICATION_404") (VInt 404) =
    (Raise (mk_exc ConstError (lit "Can't change const.APPLICATION_404") VNone),
     snd (msg_const ascii_ucd)).
Proof.
  apply (proj1 (MsgConst_write_once ascii_ucd (snd (msg_const ascii_ucd))
                  (lit "APPLICATION_404") (VInt 404))).
  exists (VStr APPLICATION_404). reflexivity.
Defined.

(** A lower-case key is refused on its first assignment and nothing is
    stored. *)
Example MsgConst_lower_case_key (ucd : unicode_db) :
  MsgConst.__setattr__ ucd ∅ (lit "application_404") (VInt 404) =
    (Raise (mk_exc ConstCaseError
              (lit "const name " ++ [34%N] ++ lit "application_404" ++ [34%N]
                 ++ lit " is not all supercase") VNone), ∅).
Proof. reflexivity. Qed.

(** *** Dictionaries *)

Lemma dict_set_fresh (d : list (str * value)) (k : str) (v : value) :
  k ∉ map fst d -> dict_set d k v = d ++ [(k, v)].
Proof.
  induction d as [|[k' v'] d IH]; intros Hk; [done|].
  cbn [dict_set]. cbn [map fst] in Hk.
  apply not_elem_of_cons in Hk as [Hne Hk].
  rewrite bool_decide_eq_false_2 by done.
  cbn [app]. f_equal. by apply IH.
Qed.

Lemma fold_dict_set_NoDup (pairs acc : list (str * value)) :
  NoDup (map fst (acc ++ pairs)) ->
  fold_left (fun d kv => dict_set d (fst kv) (snd kv)) pairs acc = acc ++ pairs.
Proof.
  revert acc. induction pairs as [|[k v] pairs IH]; intros acc Hnd.
  - by rewrite app_nil_r.
  - cbn [fold_left fst snd]. rewrite dict_set_fresh.
    + rewrite IH; rewrite <- app_assoc; done.
    + rewrite map_app in Hnd. apply NoDup_app in Hnd as (_ & Hdisj & _).
      intros Hin. apply (Hdisj k Hin). cbn. left.
Qed.

(** A list of pairs with distinct keys is its own dictionary. *)
Lemma dict_NoDup (pairs : list (str * value)) :
  NoDup (map fst pairs) -> dict pairs = pairs.
Proof. intros Hnd. unfold dict. by rewrite fold_dict_set_NoDup. Qed.

Lemma dict_get_NoDup (d : list (str * value)) (k : str) (v : value) :
  NoDup (map fst d) -> (k, v) ∈ d -> dict_get d k = Some v.
Proof.
  induction d as [|[k' v'] d IH]; intros Hnd Hin; [by apply elem_of_nil in Hin|].
  cbn [dict_get]. cbn in Hnd. apply NoDup_cons in Hnd as [Hk' Hnd].
  apply elem_of_cons in Hin as [[= <- <-]|Hin].
  - by rewrite bool_decide_eq_true_2.
  - rewrite bool_decide_eq_false_2; [by apply IH|].
    intros ->. apply Hk'. apply list_elem_of_fmap. by exists (k, v).
Qed.

Lemma dict_get_dict_set (d : list (str * value)) (k k' : str) (v : value) :
  dict_get (dict_set d k v) k' =
    if bool_decide (k = k') then Some v else dict_get d k'.
Proof.
  induction d as [|[k0 v0] d IH]; cbn [dict_set dict_get]; [done|].
  destruct (decide (k0 = k)) as [->|Hne].
  - rewrite bool_decide_eq_true_2 by done. cbn [dict_get].
    by destruct (bool_decide (k = k')).
  - rewrite (bool_decide_eq_false_2 (k0 = k)) by done. cbn [dict_get].
    rewrite IH. destruct (decide (k0 = k')) as [->|Hne'].
    + rewrite bool_decide_eq_true_2 by done.
      by rewrite bool_decide_eq_false_2 by done.
    + by rewrite (bool_decide_eq_false_2 (k0 = k')) by done.
Qed.

Lemma dict_get_app (d1 d2 : list (str * value)) (k : str) :
  dict_get (d1 ++ d2) k =
    match dict_get d1 k with Some v => Some v | None => dict_get d2 k end.
Proof.
  induction d1 as [|[k0 v0] d1 IH]; cbn [app dict_get]; [done|].
  by destruct (bool_decide (k0 = k)).
Qed.

Lemma dict_get_fold (pairs acc : list (str * value)) (k : str) :
  dict_get (fold_left (fun d kv => dict_set d (fst kv) (snd kv)) pairs acc) k =
    match dict_get (rev pairs) k with
    | Some v => Some v
    | None => dict_get acc k
    end.
Proof.
  revert acc. induction pairs as [|[k0 v0] pairs IH]; intros acc; [done|].
  cbn [fold_left fst snd rev]. rewrite IH, dict_get_app, dict_get_dict_set.
  cbn [dict_get]. destruct (dict_get (rev pairs) k); [done|].
  by destruct (bool_decide (k0 = k)).
Qed.

(** [dict(pairs)[k]] is the value of the last pair with the key [k]. *)
Lemma dict_get_dict (pairs : list (str * value)) (k : str) :
  dict_get (dict pairs) k = dict_get (rev pairs) k.
Proof.
  unfold dict. rewrite dict_get_fold. by destruct (dict_get (rev pairs) k).
Qed.

Lemma dict_set_keys (d : list (str * value)) (k : str) (v : value) :
  map fst (dict_set d k v) =
    if bool_decide (k ∈ map fst d) then map fst d else map fst d ++ [k].
Proof.
  induction d as [|[k0 v0] d IH]; cbn [dict_set map fst].
  - rewrite bool_decide_eq_false_2; [done|]. apply not_elem_of_nil.
  - destruct (decide (k0 = k)) as [->|Hne].
    + rewrite bool_decide_eq_true_2 by done. cbn [map fst].
      rewrite bool_decide_eq_true_2; [done|]. left.
    + rewrite (bool_decide_eq_false_2 (k0 = k)) by done. cbn [map fst].
      rewrite IH. destruct (decide (k ∈ map fst d)) as [Hin|Hnin].
      * rewrite !bool_decide_eq_true_2; [done|by right|done].
      * rewrite !bool_decide_eq_false_2; [done| |done].
        intros [?|?]%elem_of_cons; [by subst|done].
Qed.

Lemma dict_set_NoDup (d : list (str * value)) (k : str) (v : value) :
  NoDup (map fst d) -> NoDup (map fst (dict_set d k v)).
Proof.
  intros Hnd. rewrite dict_set_keys.
  destruct (decide (k ∈ map fst d)) as [Hin|Hnin].
  - by rewrite bool_decide_eq_true_2.
  - rewrite bool_decide_eq_false_2 by done.
    apply NoDup_app. split_and!; [done| |apply NoDup_singleton].
    intros x Hx [->|[]%elem_of_nil]%elem_of_cons. done.
Qed.

Lemma dict_keys_NoDup (pairs : list (str * value)) : NoDup (map fst (dict pairs)).
Proof.
  unfold dict.
  assert (H : forall acc, NoDup (map fst acc) ->
            NoDup (map fst (fold_left (fun d kv => dict_set d (fst kv) (snd kv))
                                      pairs acc))).
  { induction pairs as [|kv pairs IH]; intros acc Hacc; [done|].
    cbn [fold_left]. apply IH. by apply dict_set_NoDup. }
  apply H. constructor.
Qed.

Lemma dict_get_None (d : list (str * value)) (k : str) :
  k ∉ map fst d -> dict_get d k = None.
Proof.
  induction d as [|[k0 v0] d IH]; [done|]. cbn [map fst dict_get].
  intros [Hne Hk]%not_elem_of_cons.
  rewrite bool_decide_eq_false_2 by done. by apply IH.
Qed.

Lemma fold_dict_set_keys (pairs acc : list (str * value)) :
  map fst (fold_left (fun d kv => dict_set d (fst kv) (snd kv)) pairs acc) =
    map fst acc ++ first_occurrences (map fst acc) (map fst pairs).
Proof.
  revert acc. induction pairs as [|[k v] pairs IH]; intros acc.
  - cbn. by rewrite app_nil_r.
  - cbn [fold_left fst snd map first_occurrences]. rewrite IH, dict_set_keys.
    destruct (bool_decide (k ∈ map fst acc)); [done|].
    by rewrite <- app_assoc.
Qed.

Lemma last_value_rev (k : str) (pairs : list (str * value)) :
  last_value k pairs = dict_get (rev pairs) k.
Proof.
  induction pairs as [|[k' v] pairs IH]; [done|].
  cbn [last_value rev]. rewrite dict_get_app, IH. cbn [dict_get].
  destruct (dict_get (rev pairs) k); [done|].
  by destruct (bool_decide (k' = k)).
Qed.

(** A dictionary is given by its keys and what they hold. *)
Lemma dict_by_keys (d : list (str * value)) :
  NoDup (map fst d) ->
  d = map (fun k => (k, default VNone (dict_get d k))) (map fst d).
Proof.
  induction d as [|[k v] d IH]; [done|].
  cbn [map fst]. intros [Hk Hnd]%NoDup_cons.
  cbn [dict_get]. rewrite bool_decide_eq_true_2 by done. cbn [default].
  f_equal. rewrite (IH Hnd) at 1.
  apply map_ext_in. intros k' Hk'.
  rewrite bool_decide_eq_false_2; [done|].
  intros ->. by apply Hk, list_elem_of_In.
Qed.

(** [dict(pairs)] has every key once, in the order of first occurrence,
    with the value of the last pair of that key. *)
Lemma dict_columns_mapping (pairs : list (str * value)) :
  dict pairs = columns_mapping pairs.
Proof.
  rewrite (dict_by_keys (dict pairs)) by apply dict_keys_NoDup.
  unfold columns_mapping.
  assert (Hkeys : map fst (dict pairs) = first_occurrences [] (map fst pairs)).
  { unfold dict. by rewrite fold_dict_set_keys. }
  rewrite Hkeys. apply map_ext. intros k.
  by rewrite dict_get_dict, last_value_rev.
Qed.

(** *** The serializer *)

Lemma res_traverse_Ok {E A B} (f : A -> res E B) (g : A -> B) (l : list A) :
  (forall a, a ∈ l -> f a = Ok (g a)) -> res_traverse f l = Ok (map g l).
Proof.
  induction l as [|a l IH]; intros Hf; [done|].
  simpl. rewrite Hf by left. simpl.
  rewrite IH; [done|]. intros b Hb. apply Hf. by right.
Qed.

(** What [strftime] writes for the three formats. *)
Lemma strftime_datetime (dt : datetime_t) :
  strftime (lit "%Y-%m-%d %H:%M:%S") (datetime_timetuple dt) = written_datetime dt.
Proof.
  unfold written_datetime, written_date, written_time, pad. eval_lits.
  cbn -[zfill N_repr]. by norm_app.
Qed.

Lemma strftime_date (d : date_t) :
  strftime (lit "%Y-%m-%d") (date_timetuple d) = written_date d.
Proof.
  unfold written_date, pad. eval_lits. cbn -[zfill N_repr]. by norm_app.
Qed.

Lemma strftime_time (t : time_t) :
  strftime (lit "%H:%M:%S") (time_timetuple t) = written_time t.
Proof.
  unfold written_time, pad. eval_lits. cbn -[zfill N_repr]. by norm_app.
Qed.

(** Below 100 the padded field is the two digits, by running through
    the numbers. *)
Lemma two_digits_table :
  forallb (fun n => bool_decide (pad 2 (N.of_nat n) = two_digits (N.of_nat n)))
          (seq 0 (N.to_nat 100)) = true.
Proof. vm_compute. reflexivity. Qed.

Lemma pad_two_digits (n : N) : (n < 100)%N -> pad 2 n = two_digits n.
Proof.
  intros Hn. pose proof two_digits_table as H.
  rewrite forallb_forall in H. specialize (H (N.to_nat n)).
  rewrite N2Nat.id in H. apply (proj1 (bool_decide_eq_true _)), H, in_seq. lia.
Qed.

(** From 1000 to 9999 the year is the four digits: the numeral made of
    them has the value of the year and no leading zero, and so it is
    the numeral of the year. *)
Ltac digit_cases k Hk :=
  let H := fresh in
  assert (H : (k = 0 \/ k = 1 \/ k = 2 \/ k = 3 \/ k = 4 \/ k = 5 \/ k = 6
               \/ k = 7 \/ k = 8 \/ k = 9)%N) by lia;
  repeat (destruct H as [->|H]); [..|subst k].

Lemma uint_chars_digit_uint (k : N) (u : uint) :
  (k < 10)%N -> uint_chars (digit_uint k u) = (48 + k)%N :: uint_chars u.
Proof. intros Hk. digit_cases k Hk; reflexivity. Qed.

Lemma revapp_digit_uint (k : N) (u acc : uint) :
  (k < 10)%N ->
  Decimal.revapp (digit_uint k u) acc = Decimal.revapp u (digit_uint k acc).
Proof. intros Hk. digit_cases k Hk; reflexivity. Qed.

Lemma of_lu_digit_uint (k : N) (u : uint) :
  (k < 10)%N ->
  DecimalPos.Unsigned.of_lu (digit_uint k u) =
    (k + 10 * DecimalPos.Unsigned.of_lu u)%N.
Proof.
  intros Hk. rewrite DecimalPos.Unsigned.of_lu_eqn.
  digit_cases k Hk; reflexivity.
Qed.

Lemma unorm_digit_uint (k : N) (u : uint) :
  (0 < k < 10)%N -> unorm (digit_uint k u) = digit_uint k u.
Proof. intros Hk. digit_cases k Hk; reflexivity || lia. Qed.

Lemma four_digits_split (n : N) :
  (1000 <= n <= 9999)%N ->
  (0 < n / 1000 < 10 /\ n / 100 mod 10 < 10 /\ n / 10 mod 10 < 10 /\ n mod 10 < 10
   /\ n = n mod 10
           + 10 * (n / 10 mod 10 + 10 * (n / 100 mod 10 + 10 * (n / 1000 + 10 * 0))))%N.
Proof. intros Hn. zify. Z.to_euclidean_division_equations. lia. Qed.

Lemma N_repr_four_digits (n : N) : (1000 <= n <= 9999)%N -> N_repr n = four_digits n.
Proof.
  intros Hn. destruct (four_digits_split n Hn) as (Ha & Hb & Hc & He & Heq).
  set (a := (n / 1000)%N) in *. set (b := (n / 100 mod 10)%N) in *.
  set (c := (n / 10 mod 10)%N) in *. set (e := (n mod 10)%N) in *.
  assert (Hof : N.of_uint (digit_uint a (digit_uint b (digit_uint c (digit_uint e Nil))))
                = n).
  { transitivity (N.of_uint (Decimal.rev (digit_uint e (digit_uint c (digit_uint b
                                                           (digit_uint a Nil)))))).
    { unfold Decimal.rev. by rewrite !revapp_digit_uint by lia. }
    unfold N.of_uint. rewrite DecimalPos.Unsigned.of_lu_rev.
    rewrite !of_lu_digit_uint by lia. cbn [DecimalPos.Unsigned.of_lu].
    by rewrite <- Heq. }
  unfold N_repr. rewrite <- Hof at 1.
  rewrite DecimalN.Unsigned.to_of, unorm_digit_uint by lia.
  rewrite !uint_chars_digit_uint by lia. reflexivity.
Qed.

Ltac field_ranges H :=
  repeat (apply andb_true_iff in H as [H ?]);
  repeat match goal with
         | H' : (_ <=? _)%N = true |- _ => apply N.leb_le in H'
         end.

Lemma written_date_format (d : date_t) :
  valid_date d = true -> written_date d = format_date d.
Proof.
  unfold valid_date. intros H. field_ranges H.
  unfold written_date, format_date.
  by rewrite N_repr_four_digits, !pad_two_digits by lia.
Qed.

Lemma written_time_format (t : time_t) :
  valid_time t = true -> written_time t = format_time t.
Proof.
  unfold valid_time. intros H. field_ranges H.
  unfold written_time, format_time.
  by rewrite !pad_two_digits by lia.
Qed.

Lemma written_datetime_format (dt : datetime_t) :
  valid_date (dt_date dt) = true -> valid_time (dt_time dt) = true ->
  written_datetime dt = format_datetime dt.
Proof.
  intros Hd Ht. unfold written_datetime, format_datetime.
  by rewrite written_date_format, written_time_format.
Qed.

(** The conversion the row path applies is the normalization by runtime
    type, on the values whose fields are in range. *)
Lemma converted_normalize (v : value) :
  temporal_valid v = true -> converted v = normalize_temporal v.
Proof.
  unfold converted.
  destruct v; cbn [temporal_valid Serializer.in_time_type
                   Serializer.convert_datetime normalize_temporal];
    try reflexivity.
  - intros [Hd Ht]%andb_true_iff.
    by rewrite strftime_datetime, written_datetime_format.
  - intros Hd. by rewrite strftime_date, written_date_format.
  - intros Ht. by rewrite strftime_time, written_time_format.
Qed.

Lemma row_to_dict_converted (keys : list str) (vals : list value) :
  Serializer.row_to_dict (VRow keys vals) =
    Ok (VDict (dict (zip keys (map converted vals)))).
Proof. reflexivity. Qed.

Lemma row_to_dict_row (keys : list str) (vals : list value) :
  Forall (fun x => temporal_valid x = true) vals ->
  Serializer.row_to_dict (VRow keys vals) = Ok (row_mapping (keys, vals)).
Proof.
  intros Hvals. rewrite row_to_dict_converted. unfold row_mapping.
  cbn [fst snd]. rewrite dict_columns_mapping. do 4 f_equal.
  apply map_ext_in. intros x Hx. apply converted_normalize.
  rewrite Forall_forall in Hvals. by apply Hvals, list_elem_of_In.
Qed.

Lemma result_to_dict_rows (rows : list (list str * list value)) :
  Forall (fun r => Forall (fun x => temporal_valid x = true) (snd r)) rows ->
  Serializer.result_to_dict (map (fun r => VRow (fst r) (snd r)) rows) =
    Ok (map row_mapping rows).
Proof.
  unfold Serializer.result_to_dict.
  induction 1 as [|[keys vals] rows Hr _ IH]; [done|].
  cbn [map res_traverse fst snd]. rewrite row_to_dict_row by done.
  cbn [mbind res_bind]. by rewrite IH.
Qed.

(** C7, as the code has it. A list of joined-query rows whose dates and
    times are of the year 1000 or later is serialized to one mapping per
    row, built from the row's column names and its values, where a value
    whose runtime type is datetime, date or time is replaced by its
    fixed-format string and every other value is passed through. *)
Theorem as_dict_joined_rows (rows : list (list str * list value)) :
  Forall (fun r => Forall (fun x => temporal_valid x = true) (snd r)) rows ->
  Serializer.as_dict (VList (map (fun r => VRow (fst r) (snd r)) rows)) =
    Ok (VList (map row_mapping rows)).
Proof.
  intros Hrows. destruct rows as [|r rows]; [reflexivity|].
  unfold Serializer.as_dict.
  change (map ?f (r :: rows)) with (f r :: map f rows) at 1.
  cbn [Serializer.isinstance_Model].
  change (VRow r.1 r.2 :: map (fun r => VRow r.1 r.2) rows)
    with (map (fun r => VRow r.1 r.2) (r :: rows)).
  by rewrite result_to_dict_rows.
Qed.

Lemma as_dict_joined_rows_witness :
  Serializer.as_dict
    (VList [VRow [lit "id"; lit "created_at"; lit "id"]
                 [VInt 1;
                  VDatetime (mk_datetime (mk_date 2023 5 1) (mk_time 10 15 30 0));
                  VInt 2]]) =
    Ok (VList [VDict [(lit "id", VInt 2);
                      (lit "created_at", VStr (lit "2023-05-01 10:15:30"))]]).
Proof.
  apply (as_dict_joined_rows
           [([lit "id"; lit "created_at"; lit "id"],
             [VInt 1;
              VDatetime (mk_datetime (mk_date 2023 5 1) (mk_time 10 15 30 0));
              VInt 2])]).
  repeat constructor.
Defined.

(** A row with a datetime of the year 999: the year is written in three
    digits, so the value is not in the format [YYYY-MM-DD HH:MM:SS]. *)
Lemma as_dict_row_year_999 :
  Serializer.as_dict
    (VList [VRow [lit "created_at"]
                 [VDatetime (mk_datetime (mk_date 999 1 2) (mk_time 3 4 5 0))]]) =
    Ok (VList [VDict [(lit "created_at", VStr (lit "999-01-02 03:04:05"))]])
  /\ format_datetime (mk_datetime (mk_date 999 1 2) (mk_time 3 4 5 0)) =
       lit "0999-01-02 03:04:05"
  /\ Serializer.as_dict
       (VList [VRow [lit "created_at"]
                    [VDatetime (mk_datetime (mk_date 999 1 2) (mk_time 3 4 5 0))]]) <>
     Ok (VList (map row_mapping
                    [([lit "created_at"],
                      [VDatetime (mk_datetime (mk_date 999 1 2)
                                              (mk_time 3 4 5 0))])])).
Proof. split_and!; [reflexivity|reflexivity|]. vm_compute. discriminate. Qed.

(** Two rows with the columns [(id, created_at)]. *)
Example as_dict_two_rows :
  let created := mk_datetime (mk_date 2023 5 1) (mk_time 10 15 30 0) in
  Serializer.as_dict
    (VList [VRow [lit "id"; lit "created_at"] [VInt 1; VDatetime created];
            VRow [lit "id"; lit "created_at"] [VInt 2; VDatetime created]]) =
    Ok (VList [VDict [(lit "id", VInt 1);
                      (lit "created_at", VStr (lit "2023-05-01 10:15:30"))];
               VDict [(lit "id", VInt 2);
                      (lit "created_at", VStr (lit "2023-05-01 10:15:30"))]]).
Proof. reflexivity. Qed.

(** The loop that appends to [res_] is the traversal of the entity path. *)
Lemma models_loop_traverse (models res_ : list value) :
  Serializer.models_loop models res_ =
    (fun r => res_ ++ r) <$> res_traverse entity_to_dict models.
Proof.
  unfold entity_to_dict.
  revert res_. induction models as [|model models IH]; intros res_.
  - cbn. by rewrite app_nil_r.
  - cbn [Serializer.models_loop res_traverse].
    destruct (Serializer.model_to_dict model) as [g|e]; [|done].
    cbn [mbind res_bind fmap res_fmap]. rewrite IH.
    destruct (res_traverse _ models) as [r|e]; [|done].
    cbn [mbind res_bind fmap res_fmap]. by rewrite <- app_assoc.
Qed.

(** C10. On a non-empty list the type of the first element alone picks
    the path: when it is an entity every element goes through the
    entity path, otherwise every element goes through the raw-row path,
    whatever the other elements are. *)
Theorem as_dict_dispatch_on_first (first : value) (rest : list value) :
  Serializer.as_dict (VList (first :: rest)) =
    VList <$> res_traverse
                (if Serializer.isinstance_Model first
                 then entity_to_dict else Serializer.row_to_dict)
                (first :: rest).
Proof.
  unfold Serializer.as_dict.
  destruct (Serializer.isinstance_Model first); [|done].
  rewrite models_loop_traverse.
  by destruct (res_traverse entity_to_dict (first :: rest)).
Qed.

Lemma column_item_readable (attrs : list (str * value)) (col : Column) :
  readable attrs col = true ->
  Serializer.column_item attrs col = Ok (col_name col, rendered attrs col).
Proof.
  unfold readable, rendered, Serializer.column_item, Serializer.getattr.
  destruct (dict_get attrs (col_name col)) as [v|]; [|done].
  destruct (isinstance_DateTime _); [done|].
  destruct (isinstance_Numeric _); [|done].
  cbn [mbind res_bind]. by destruct (py_float v).
Qed.

Lemma model_to_dict_readable (columns : list Column) (attrs : list (str * value)) :
  forallb (readable attrs) columns = true ->
  Serializer.model_to_dict (VModel columns attrs) =
    Ok (map (fun col => (col_name col, rendered attrs col)) columns).
Proof.
  intros Hr. cbn [Serializer.model_to_dict]. apply res_traverse_Ok.
  intros col Hcol. apply column_item_readable.
  rewrite forallb_forall in Hr. by apply Hr, list_elem_of_In.
Qed.

Lemma as_dict_entity (columns : list Column) (attrs : list (str * value)) :
  forallb (readable attrs) columns = true ->
  Serializer.as_dict (VModel columns attrs) = Ok (field_mapping columns attrs).
Proof.
  intros Hr. unfold Serializer.as_dict. by rewrite model_to_dict_readable.
Qed.

(** A row after an entity is sent down the entity path, an entity after
    a row down the raw-row path; either way the odd element raises
    [AttributeError]. *)
Example as_dict_mixed_list (columns : list Column) (attrs : list (str * value))
    (keys : list str) (vals : list value) :
  Serializer.as_dict (VList [VRow keys vals; VModel columns attrs]) =
    Raise AttributeError
  /\ (forallb (readable attrs) columns = true ->
      Serializer.as_dict (VList [VModel columns attrs; VRow keys vals]) =
        Raise AttributeError).
Proof.
  split; [reflexivity|]. intros Hr.
  unfold Serializer.as_dict. cbn [Serializer.isinstance_Model].
  rewrite models_loop_traverse. unfold entity_to_dict.
  cbn [res_traverse]. rewrite model_to_dict_readable by done. reflexivity.
Qed.

(** An empty list gives an empty list; any other falsy input ([None],
    zero, an empty string, tuple, dictionary or row) gives [None]; an
    entity all of whose columns can be read gives its one field mapping,
    not a list. *)
Lemma as_dict_empty_null_entity :
  Serializer.as_dict (VList []) = Ok (VList [])
  /\ (forall v, truthy v = false ->
        Serializer.as_dict v =
          Ok (match v with VList _ => VList [] | _ => VNone end))
  /\ (forall columns attrs,
        forallb (readable attrs) columns = true ->
        Serializer.as_dict (VModel columns attrs) =
          Ok (field_mapping columns attrs)).
Proof.
  split_and!.
  - reflexivity.
  - intros v Hv.
    destruct v as [| | | | | | | | |l| | | |]; try discriminate Hv;
      try (cbn [Serializer.as_dict]; by rewrite Hv).
    by destruct l.
  - apply as_dict_entity.
Qed.

(** An entity with an Integer and a String column. *)
Example as_dict_plain_entity :
  Serializer.as_dict
    (VModel [mk_column (lit "id") sa.Integer; mk_column (lit "name") sa.String]
            [(lit "id", VInt 7); (lit "name", VStr (lit "ann"))]) =
    Ok (VDict [(lit "id", VInt 7); (lit "name", VStr (lit "ann"))]).
Proof. reflexivity. Qed.

(** C6, at the input where the code departs from it. An entity whose
    Numeric column is NULL has no mapping: [model_to_dict] calls
    [float] on the value without a test for [None], which the DateTime
    branch, the branch for other columns and the raw-row path do not
    need, so [float(None)] raises [TypeError] and the serializer with
    it, where the claim promises one field mapping. The same entity with
    a String column in place of the Numeric one is mapped, NULL and
    all. *)
Theorem as_dict_entity_null_numeric :
  Serializer.as_dict
    (VModel [mk_column (lit "price") sa.Numeric] [(lit "price", VNone)]) =
    Raise TypeError
  /\ Serializer.as_dict
       (VModel [mk_column (lit "price") sa.String] [(lit "price", VNone)]) =
       Ok (VDict [(lit "price", VNone)])
  /\ Serializer.as_dict
       (VModel [mk_column (lit "price") sa.DateTime] [(lit "price", VNone)]) =
       Ok (VDict [(lit "price", VNone)]).
Proof. split_and!; reflexivity. Qed.

(** In the mapping of an entity all of whose columns can be read, every
    column declared Numeric holds the float that [float] makes of the
    column's value. *)
Lemma as_dict_numeric_columns (columns : list Column) (attrs : list (str * value)) :
  NoDup (map col_name columns) ->
  forallb (readable attrs) columns = true ->
  exists d,
    Serializer.as_dict (VModel columns attrs) = Ok (VDict d)
    /\ forall col, col ∈ columns -> isinstance_Numeric (col_type col) = true ->
       exists v f,
         dict_get attrs (col_name col) = Some v /\ py_float v = Ok f
         /\ dict_get d (col_name col) = Some (VFloat f).
Proof.
  intros Hnd Hr. eexists. split; [by apply as_dict_entity|].
  intros col Hcol Hnum.
  assert (Hrc : readable attrs col = true).
  { rewrite forallb_forall in Hr. by apply Hr, list_elem_of_In. }
  assert (Hnd' : NoDup (map fst (map (fun col => (col_name col, rendered attrs col))
                                     columns))).
  { by rewrite map_map. }
  rewrite (dict_NoDup _ Hnd').
  rewrite (dict_get_NoDup _ (col_name col) (rendered attrs col) Hnd').
  2:{ apply list_elem_of_fmap. by exists col. }
  unfold readable in Hrc. unfold rendered.
  destruct (dict_get attrs (col_name col)) as [v|]; [|done].
  assert (Hdt : isinstance_DateTime (col_type col) = false).
  { revert Hnum. by destruct (col_type col). }
  rewrite Hdt, Hnum in *. destruct (py_float v) as [f|] eqn:Hf; [|done].
  by exists v, f.
Qed.

(** A Numeric column valued 12.5 yields the float 12.5, which is
    [25 * 2^-1]. *)
Example as_dict_decimal_12_5 :
  Serializer.as_dict
    (VModel [mk_column (lit "price") sa.Numeric]
            [(lit "price", VDecimal (DFinite false 125 (-1)))]) =
    Ok (VDict [(lit "price", VFloat (FFinite false 25 (-1)))]).
Proof. reflexivity. Qed.

(** C8, at the input where the code departs from it. A NULL in a
    DECIMAL column: [float(None)] raises [TypeError], no mapping comes
    back, and so the column is not rendered as a float (nor as anything
    else). A Decimal in the same column is rendered as the float. *)
Theorem as_dict_null_decimal_raises :
  Serializer.as_dict
    (VModel [mk_column (lit "id") sa.Integer; mk_column (lit "amount") sa.DECIMAL]
            [(lit "id", VInt 1); (lit "amount", VNone)]) = Raise TypeError
  /\ ~ (exists d f,
          Serializer.as_dict
            (VModel [mk_column (lit "id") sa.Integer;
                     mk_column (lit "amount") sa.DECIMAL]
                    [(lit "id", VInt 1); (lit "amount", VNone)]) = Ok (VDict d)
          /\ dict_get d (lit "amount") = Some (VFloat f))
  /\ Serializer.as_dict
       (VModel [mk_column (lit "id") sa.Integer; mk_column (lit "amount") sa.DECIMAL]
               [(lit "id", VInt 1);
                (lit "amount", VDecimal (DFinite false 125 (-1)))]) =
       Ok (VDict [(lit "id", VInt 1); (lit "amount", VFloat (FFinite false 25 (-1)))]).
Proof.
  split_and!; [reflexivity| |reflexivity].
  intros (d & f & Hd & _). discriminate Hd.
Qed.

(** A DateTime column that holds a datetime is rendered as [strftime]
    writes it. *)
Lemma column_item_DateTime (attrs : list (str * value)) (col : Column) (dt : datetime_t) :
  isinstance_DateTime (col_type col) = true ->
  dict_get attrs (col_name col) = Some (VDatetime dt) ->
  Serializer.column_item attrs col = Ok (col_name col, VStr (written_datetime dt)).
Proof.
  intros Ht Hv. unfold Serializer.column_item, Serializer.getattr.
  rewrite Ht, Hv. cbn [mbind res_bind Serializer.convert_datetime].
  by rewrite strftime_datetime.
Qed.

(** The datetime 2023-05-01T10:15:30 in a DateTime column. *)
Example as_dict_datetime_column :
  Serializer.as_dict
    (VModel [mk_column (lit "created_at") sa.DateTime]
            [(lit "created_at",
              VDatetime (mk_datetime (mk_date 2023 5 1) (mk_time 10 15 30 0)))]) =
    Ok (VDict [(lit "created_at", VStr (lit "2023-05-01 10:15:30"))]).
Proof. reflexivity. Qed.

(** A column declared Date or Time is none of the two kinds the entity
    path converts: its value is yielded as it is. *)
Lemma column_item_Date_Time (attrs : list (str * value)) (col : Column) (v : value) :
  col_type col = sa.Date \/ col_type col = sa.Time ->
  dict_get attrs (col_name col) = Some v ->
  Serializer.column_item attrs col = Ok (col_name col, v).
Proof.
  intros Ht Hv. unfold Serializer.column_item, Serializer.getattr.
  rewrite Hv. by destruct Ht as [-> | ->].
Qed.

(** C5, at the input where the code departs from it. The entity path
    converts the columns declared DateTime only: the date of a Date
    column and the time of a Time column come out as the objects they
    are, not as the strings 2023-05-01 and 09:30:00, which the raw-row
    path makes of the same two values. *)
Theorem as_dict_date_column_passed_through :
  Serializer.as_dict
    (VModel [mk_column (lit "birthday") sa.Date; mk_column (lit "opens") sa.Time]
            [(lit "birthday", VDate (mk_date 2023 5 1));
             (lit "opens", VTime (mk_time 9 30 0 0))]) =
    Ok (VDict [(lit "birthday", VDate (mk_date 2023 5 1));
               (lit "opens", VTime (mk_time 9 30 0 0))])
  /\ Serializer.as_dict
       (VRow [lit "birthday"; lit "opens"]
             [VDate (mk_date 2023 5 1); VTime (mk_time 9 30 0 0)]) =
       Ok (VDict [(lit "birthday", VStr (lit "2023-05-01"));
                  (lit "opens", VStr (lit "09:30:00"))]).
Proof. split; reflexivity. Qed.

(** *** The encoder *)

















Lemma json_encode_VList (ea : bool) (l : list value) :
  json_encode ea (VList l) =
    items ← res_traverse (json_encode ea) l;
    Ok (lit "[" ++ join (lit ", ") items ++ lit "]").
Proof. reflexivity. Qed.

Lemma json_encode_VTuple (ea : bool) (l : list value) :
  json_encode ea (VTuple l) =
    items ← res_traverse (json_encode ea) l;
    Ok (lit "[" ++ join (lit ", ") items ++ lit "]").
Proof. reflexivity. Qed.

Lemma json_encode_VRow (ea : bool) (keys : list str) (l : list value) :
  json_encode ea (VRow keys l) =
    items ← res_traverse (json_encode ea) l;
    Ok (lit "[" ++ join (lit ", ") items ++ lit "]").
Proof. reflexivity. Qed.

Lemma json_encode_VDict (d : list (str * value)) :
  json_encode false (VDict d) =
    items ← res_traverse
      (fun kv => t ← json_encode false (snd kv);
                 Ok (py_encode_basestring (fst kv) ++ lit ": " ++ t)) d;
    Ok (lit "{" ++ join (lit ", ") items ++ lit "}").
Proof. reflexivity. Qed.

Lemma res_traverse_cons {E A B} (f : A -> res E B) (a : A) (l : list A) :
  res_traverse f (a :: l) = b ← f a; bs ← res_traverse f l; Ok (b :: bs).
Proof. reflexivity. Qed.


(** An integer within the limit is written. *)
Lemma int_str_Ok (z : Z) :
  (int_digits z <=? max_str_digits)%N = true -> int_str z = Ok (int_repr z).
Proof.
  intros Hz. unfold int_str. apply N.leb_le in Hz.
  by rewrite (proj2 (N.ltb_ge _ _)).
Qed.







(** *** The text of a value as UTF-8 *)







Lemma Ok_inj {E A} (a b : A) : @Ok E A a = Ok b -> a = b.
Proof. by intros [= ->]. Qed.

Lemma res_traverse_Ok_inv {E A B} (f : A -> res E B) (l : list A) (bs : list B) :
  res_traverse f l = Ok bs -> Forall2 (fun a b => f a = Ok b) l bs.
Proof.
  revert bs. induction l as [|a l IH]; intros bs Hl.
  - injection Hl as <-. constructor.
  - rewrite res_traverse_cons in Hl.
    destruct (f a) as [b|e] eqn:Hb; [|discriminate Hl]. cbn [mbind res_bind] in Hl.
    destruct (res_traverse f l) as [bs'|e] eqn:Hbs; [|discriminate Hl].
    injection Hl as <-. constructor; [done|]. by apply IH.
Qed.






(** The message of message.py as a result: its six characters stand in
    the text as they are, and in the body as the three octets each of
    their UTF-8 encoding. *)
Example standard_resp_chinese_message :
  exists body,
    str_encode (lit "{" ++ quoted "code" ++ lit ": 200, " ++ quoted "result"
                  ++ lit ": " ++ [34%N] ++ APPLICATION_404 ++ [34%N] ++ lit "}")
      = Ok body
    /\ standard_resp (fun _ : unit => Ok (VStr APPLICATION_404)) tt =
         Ok (ResponseObject (mk_Response body (lit "application/json") 200))
    /\ length body = (length (lit "{" ++ quoted "code" ++ lit ": 200, "
                                ++ quoted "result" ++ lit ": " ++ [34%N]
                                ++ [34%N] ++ lit "}") + 3 * 6)%nat.
Proof. eexists. split_and!; reflexivity. Qed.

(** With [ensure_ascii=True] the same message would be escaped. *)
Example json_dumps_ensure_ascii_escapes :
  json_dumps (VStr APPLICATION_404) true =
    Ok ([34%N] ++ lit "\u9879\u76ee\u627e\u4e0d\u5230\u4e86" ++ [34%N]).
Proof. reflexivity. Qed.


(** A result with a lone surrogate in a string has a text that
    [Response] cannot encode, and an integer of more than 4300 digits
    has no text; neither error is caught. *)
Example standard_resp_lone_surrogate :
  standard_resp (fun _ : unit => Ok (VStr [55296%N])) tt = Raise UnicodeEncodeError.
Proof. reflexivity. Qed.

Lemma standard_resp_long_integer {args : Type}
    (func : args -> res exc value) (a : args) (z : Z) :
  func a = Ok (VInt z) -> (max_str_digits <? int_digits z)%N = true ->
  standard_resp func a = Raise ValueError.
Proof.
  intros Hret Hlen. unfold standard_resp. rewrite Hret.
  unfold json_dumps. rewrite json_encode_VDict, !res_traverse_cons.
  cbn [fst snd json_encode]. rewrite (int_str_Ok 200) by reflexivity.
  unfold int_str at 1. rewrite Hlen. reflexivity.
Qed.

(** *** The wrapper: subclasses, statuses, results without an encoding *)

Lemma standard_resp_Raise {args : Type} (func : args -> res exc value) (a : args) (e : exc) :
  func a = Raise e ->
  standard_resp func a = standard_resp (fun _ : unit => Raise e) tt.
Proof. intros H. unfold standard_resp. by rewrite H. Qed.

Lemma standard_resp_base_class (name : str) (base : exc_class) (msg : str) (data : value) :
  standard_resp (fun _ : unit => Raise (mk_exc (Derived name base) msg data)) tt =
  match standard_resp (fun _ : unit => Raise (mk_exc base msg data)) tt with
  | Ok r => Ok r
  | Raise _ => Raise (Derived name base)
  end.
Proof.
  unfold standard_resp, isinstance. cbn [exc_type exc_str exc_data].
  rewrite !(issubclass_any_Derived name base) by reflexivity.
  repeat match goal with
         | |- context [if issubclass_any base ?l then _ else _] =>
             destruct (issubclass_any base l); [reflexivity|]
         end.
  reflexivity.
Qed.

Lemma classification_of_ancestor (c K : exc_class) (msg : str) (data : value)
    (status : Z) (with_data : bool) :
  issubclass c K = true ->
  classification_table K = Some (status, with_data) ->
  standard_resp (fun _ : unit => Raise (mk_exc c msg data)) tt =
    Ok (BodyStatus (error_envelope status msg (if with_data then data else VNone))
                   status).
Proof.
  intros Hsub Htable.
  assert (HK : builtin_class K = true) by (by destruct K).
  induction c;
    try (clear HK; destruct K; try discriminate Htable; try discriminate Hsub;
         injection Htable as <- <-; reflexivity).
  rewrite issubclass_Derived in Hsub by done.
  rewrite standard_resp_base_class, IHc; done.
Qed.

(** X1. The [except] clauses match subclasses: a failure whose class
    derives, in any number of steps, from a kind [K] of the
    classification table is answered with the status and the payload
    rule of [K]. *)
Theorem standard_resp_subclass_classification {args : Type}
    (func : args -> res exc value) (a : args) (e : exc) (K : exc_class)
    (status : Z) (with_data : bool) :
  func a = Raise e ->
  issubclass (exc_type e) K = true ->
  classification_table K = Some (status, with_data) ->
  standard_resp func a =
    Ok (BodyStatus
          (error_envelope status (exc_str e)
             (if with_data then exc_data e else VNone))
          status).
Proof.
  intros Hraise Hsub Htable. rewrite (standard_resp_Raise func a e Hraise).
  destruct e as [c msg data]. by apply (classification_of_ancestor c K).
Qed.

Lemma standard_resp_subclass_classification_witness :
  standard_resp
    (fun _ : unit =>
       Raise (mk_exc (Derived (lit "QuotaError") (Derived (lit "Busy") DevopsBusyError))
                     (lit "later") (VInt 9))) tt =
    Ok (BodyStatus (error_envelope 500 (lit "later") (VInt 9)) 500).
Proof.
  apply (standard_resp_subclass_classification
           (fun _ : unit =>
              Raise (mk_exc (Derived (lit "QuotaError") (Derived (lit "Busy") DevopsBusyError))
                            (lit "later") (VInt 9))) tt
           (mk_exc (Derived (lit "QuotaError") (Derived (lit "Busy") DevopsBusyError))
                   (lit "later") (VInt 9))
           DevopsBusyError 500 true); reflexivity.
Defined.

(** X2. The answer to a failure that is an instance of [Exception] is
    always a pair of a body and a status, never a [Response]; the status
    is one of 400, 401, 403, 404 and 500 and stands in the body too; the
    payload is the failure's [data] or null. *)
Theorem standard_resp_error_statuses {args : Type}
    (func : args -> res exc value) (a : args) (e : exc) :
  func a = Raise e ->
  isinstance e [Exception] = true ->
  exists status data,
    standard_resp func a =
      Ok (BodyStatus (error_envelope status (exc_str e) data) status)
    /\ status ∈ error_statuses
    /\ (data = exc_data e \/ data = VNone).
Proof.
  intros Hraise Hexc. unfold standard_resp. rewrite Hraise, Hexc.
  repeat match goal with
         | |- context [if isinstance e ?l then _ else _] =>
             destruct (isinstance e l);
             [ eexists _, _; split; [reflexivity|]; split;
               [ apply (bool_decide_unpack _); vm_compute; exact I
               | first [by left | by right] ]
             | ]
         end.
  eexists _, _; split; [reflexivity|]; split;
    [ apply (bool_decide_unpack _); vm_compute; exact I | by right ].
Qed.

Lemma standard_resp_error_statuses_witness :
  exists status data,
    standard_resp
      (fun _ : unit => Raise (mk_exc NotFoundError (lit "no such job") (VInt 3))) tt =
      Ok (BodyStatus (error_envelope status (lit "no such job") data) status)
    /\ status ∈ error_statuses
    /\ (data = VInt 3 \/ data = VNone).
Proof.
  apply (standard_resp_error_statuses
           (fun _ : unit => Raise (mk_exc NotFoundError (lit "no such job") (VInt 3)))
           tt (mk_exc NotFoundError (lit "no such job") (VInt 3)));
    reflexivity.
Defined.






(** *** The decoder reads back what the encoder writes *)

Lemma all_digits_uint_chars (u : uint) : all_digits (uint_chars u).
Proof. induction u; cbn [uint_chars]; constructor; done. Qed.

Lemma chars_uint_uint_chars (u : uint) : chars_uint (uint_chars u) = u.
Proof. induction u; cbn [uint_chars chars_uint]; [done|..]; by rewrite IHu. Qed.

Lemma int_of_digits_N_repr (n : N) : int_of_digits (N_repr n) = n.
Proof.
  unfold int_of_digits, N_repr. rewrite chars_uint_uint_chars.
  apply DecimalN.Unsigned.of_to.
Qed.

Lemma span_digits_app (ds rest : str) :
  all_digits ds -> number_end rest = true ->
  span_digits (ds ++ rest) = (ds, rest).
Proof.
  intros Hds Hrest. induction Hds as [|c ds Hc _ IH].
  - destruct rest as [|c rest]; [done|]. cbn in *.
    destruct (is_digit c); [done|done].
  - cbn [app span_digits]. by rewrite Hc, IH.
Qed.




















Lemma join_cons (x : str) (xs : list str) :
  join (lit ", ") (x :: xs) = x ++ more xs.
Proof. destruct xs; cbn [join more]; [by rewrite app_nil_r|done]. Qed.

Lemma more_cons (x : str) (xs : list str) :
  more (x :: xs) = 44%N :: 32%N :: x ++ more xs.
Proof. unfold more at 1. by rewrite join_cons. Qed.



Lemma number_end_more (items : list str) (c : char) (rest : str) :
  c = 93%N \/ c = 125%N -> number_end (more items ++ c :: rest) = true.
Proof.
  intros Hc. destruct items as [|x xs].
  - by destruct Hc as [-> | ->].
  - by rewrite more_cons.
Qed.


















(** *** The wrapper: the octets of the body, and the registry's errors *)

Ltac no_control_lit := apply (bool_decide_unpack _); vm_compute; exact I.

Lemma no_control_app (a b : str) : no_control a -> no_control b -> no_control (a ++ b).
Proof. apply Forall_app_2. Qed.

Lemma no_control_uint_chars (u : uint) : no_control (uint_chars u).
Proof.
  induction u; cbn [uint_chars]; [constructor|..];
    (constructor; [unfold digit_char; lia|done]).
Qed.

Lemma no_control_N_repr (n : N) : no_control (N_repr n).
Proof. apply no_control_uint_chars. Qed.

Lemma no_control_int_repr (z : Z) : no_control (int_repr z).
Proof.
  destruct z; cbn [int_repr]; try apply no_control_N_repr.
  apply no_control_app; [no_control_lit|apply no_control_N_repr].
Qed.

Lemma no_control_zfill (w : nat) (s : str) : no_control s -> no_control (zfill w s).
Proof.
  intros Hs. unfold zfill. apply no_control_app; [|done].
  apply Forall_replicate. unfold digit_char. lia.
Qed.

Lemma no_control_zeros (n : Z) : no_control (zeros n).
Proof. apply Forall_replicate. unfold digit_char. lia. Qed.

Lemma no_control_format_repr (ds : str) (decpt : Z) :
  no_control ds -> no_control (format_repr ds decpt).
Proof.
  intros Hds. unfold format_repr.
  repeat match goal with
         | |- no_control (if ?b then _ else _) => destruct b
         | |- no_control (_ ++ _) => apply no_control_app
         | |- no_control (lit _) => no_control_lit
         | |- no_control [] => constructor
         | |- no_control (take _ _) => apply Forall_take
         | |- no_control (drop _ _) => apply Forall_drop
         | |- no_control (zeros _) => apply no_control_zeros
         | |- no_control (zfill _ _) => apply no_control_zfill
         | |- no_control (N_repr _) => apply no_control_N_repr
         | |- _ => assumption
         end.
Qed.

Lemma no_control_float_repr (f : pyfloat) : no_control (float_repr f).
Proof.
  destruct f as [|neg|neg m e]; cbn [float_repr].
  - no_control_lit.
  - destruct neg; no_control_lit.
  - apply no_control_app; [destruct neg; [no_control_lit|constructor]|].
    destruct m; [no_control_lit|].
    destruct (shortest_digits _ _ _) as [D s].
    destruct (strip_decimal_zeros _ _ _) as [D' s'].
    apply no_control_format_repr, no_control_N_repr.
Qed.

Lemma no_control_floatstr (f : pyfloat) : no_control (floatstr f).
Proof.
  unfold floatstr. destruct f as [|[]|neg m e];
    [no_control_lit | no_control_lit | no_control_lit | apply no_control_float_repr].
Qed.

Lemma hex_digit_no_control (n : N) : (32 <= hex_digit n)%N.
Proof. unfold hex_digit. destruct (n <? 10)%N; lia. Qed.

Lemma no_control_encode_char (c : char) : no_control (encode_char c).
Proof.
  unfold encode_char, short_escape.
  repeat match goal with
         | |- context [(c =? ?k)%N] =>
             destruct (c =? k)%N; [no_control_lit|]
         end.
  destruct (c <? 32)%N eqn:Hc.
  - apply no_control_app; [no_control_lit|].
    unfold hex4. repeat constructor; apply hex_digit_no_control.
  - apply N.ltb_ge in Hc. by repeat constructor.
Qed.

Lemma no_control_encode_basestring (s : str) : no_control (py_encode_basestring s).
Proof.
  unfold py_encode_basestring.
  apply no_control_app; [no_control_lit|]. apply no_control_app; [|no_control_lit].
  induction s as [|c s IH]; [constructor|].
  cbn [flat_map]. apply no_control_app; [apply no_control_encode_char|done].
Qed.

Lemma no_control_join (sep : str) (items : list str) :
  no_control sep -> Forall no_control items -> no_control (join sep items).
Proof.
  intros Hsep Hitems. induction Hitems as [|x items Hx Hitems IH]; [constructor|].
  destruct items as [|y items]; [done|].
  change (join sep (x :: y :: items)) with (x ++ sep ++ join sep (y :: items)).
  by repeat apply no_control_app.
Qed.

Lemma no_control_items (l : list value) (items : list str) :
  Forall (fun v => forall text, json_encode false v = Ok text -> no_control text) l ->
  res_traverse (json_encode false) l = Ok items ->
  no_control (lit "[" ++ join (lit ", ") items ++ lit "]").
Proof.
  intros IH Hitems.
  apply no_control_app; [no_control_lit|]. apply no_control_app; [|no_control_lit].
  apply no_control_join; [no_control_lit|].
  apply res_traverse_Ok_inv in Hitems.
  induction Hitems as [|v t l items Hvt _ IHi]; [constructor|].
  apply Forall_cons in IH as [Hv IH]. constructor; [by apply Hv|by apply IHi].
Qed.

Lemma json_encode_no_control (v : value) (text : str) :
  json_encode false v = Ok text -> no_control text.
Proof.
  revert text.
  induction v as [| |z|f| |s| | | |l IH|l IH|d IH|keys vals IH|columns attrs IH]
    using value_ind; intros text Ht; try discriminate Ht.
  - apply Ok_inj in Ht as <-. no_control_lit.
  - destruct b; apply Ok_inj in Ht as <-; no_control_lit.
  - cbn [json_encode] in Ht. unfold int_str in Ht.
    destruct (max_str_digits <? int_digits z)%N; [discriminate Ht|].
    apply Ok_inj in Ht as <-. apply no_control_int_repr.
  - apply Ok_inj in Ht as <-. apply no_control_floatstr.
  - apply Ok_inj in Ht as <-. apply no_control_encode_basestring.
  - rewrite json_encode_VList in Ht.
    destruct (res_traverse (json_encode false) l) as [items|e] eqn:Hitems;
      [|discriminate Ht].
    apply Ok_inj in Ht as <-. by apply (no_control_items l).
  - rewrite json_encode_VTuple in Ht.
    destruct (res_traverse (json_encode false) l) as [items|e] eqn:Hitems;
      [|discriminate Ht].
    apply Ok_inj in Ht as <-. by apply (no_control_items l).
  - rewrite json_encode_VDict in Ht.
    destruct (res_traverse _ d) as [items|e] eqn:Hitems; [|discriminate Ht].
    apply Ok_inj in Ht as <-.
    apply no_control_app; [no_control_lit|]. apply no_control_app; [|no_control_lit].
    apply no_control_join; [no_control_lit|].
    apply res_traverse_Ok_inv in Hitems.
    induction Hitems as [|[k v] item d items Hvt _ IHi]; [constructor|].
    apply Forall_cons in IH as [Hv IH]. constructor; [|by apply IHi].
    cbn [fst snd] in Hvt, Hv.
    destruct (json_encode false v) as [t|e] eqn:Hvt'; [|discriminate Hvt].
    apply Ok_inj in Hvt as <-.
    apply no_control_app; [apply no_control_encode_basestring|].
    apply no_control_app; [no_control_lit|by apply Hv].
  - rewrite json_encode_VRow in Ht.
    destruct (res_traverse (json_encode false) vals) as [items|e] eqn:Hitems;
      [|discriminate Ht].
    apply Ok_inj in Ht as <-. by apply (no_control_items vals).
Qed.

(** The octets of a code point from U+0020 on are 0x20 or more. *)
Lemma no_control_utf8_char (c : char) (b : bytes) :
  (32 <= c)%N -> utf8_char c = Some b -> no_control b.
Proof.
  intros Hc. unfold utf8_char.
  repeat match goal with
         | |- context [if ?b then _ else _] => destruct b
         end;
    cbn beta iota; intros [= <-];
    repeat (constructor; [first [done|by etrans; [|apply N.le_add_r]]|]);
    constructor.
Qed.

Lemma str_encode_no_control (s : str) (b : bytes) :
  no_control s -> str_encode s = Ok b -> no_control b.
Proof.
  unfold str_encode. intros Hs.
  destruct (res_traverse _ s) as [chunks|e] eqn:Hchunks; [|done].
  cbn [mbind res_bind]. intros [= <-].
  apply res_traverse_Ok_inv in Hchunks.
  induction Hchunks as [|c chunk s chunks Hc _ IH]; [constructor|].
  apply Forall_cons in Hs as [Hc32 Hs]. cbn [concat].
  apply no_control_app; [|by apply IH].
  destruct (utf8_char c) as [b|] eqn:Hb; [|done].
  apply Ok_inj in Hc as <-. by eapply no_control_utf8_char.
Qed.

(** X6. The body of a response of the wrapper holds no raw control
    character: every code point below U+0020 of a string of the result
    is written as an escape, and the UTF-8 encoding adds no octet below
    0x20. *)
Theorem standard_resp_body_no_control {args : Type}
    (func : args -> res exc value) (a : args) (r : Response) :
  standard_resp func a = Ok (ResponseObject r) -> no_control (response r).
Proof.
  unfold standard_resp. destruct (func a) as [v|e].
  - destruct (json_dumps _ false) as [body|c] eqn:Hbody; [|done].
    cbn [mbind res_bind]. unfold Response_new.
    destruct (str_encode body) as [data|c] eqn:Hdata; [|done].
    cbn [mbind res_bind]. intros [= <-]. cbn [response].
    eapply str_encode_no_control; [|exact Hdata].
    by eapply json_encode_no_control.
  - unfold resp_error.
    repeat match goal with
           | |- context [if ?b then _ else _] => destruct b; [done|]
           end.
    done.
Qed.

Lemma standard_resp_body_no_control_witness :
  no_control
    (lit "{" ++ quoted "code" ++ lit ": 200, " ++ quoted "result" ++ lit ": "
       ++ [34%N] ++ lit "a\nb" ++ [34%N] ++ lit "}").
Proof.
  apply (standard_resp_body_no_control
           (fun _ : unit => Ok (VStr [97; 10; 98]%N)) tt
           (mk_Response
              (lit "{" ++ quoted "code" ++ lit ": 200, " ++ quoted "result"
                 ++ lit ": " ++ [34%N] ++ lit "a\nb" ++ [34%N] ++ lit "}")
              (lit "application/json") 200)).
  reflexivity.
Defined.

Section registry_errors.
Context (ucd : unicode_db).

(** X7. A rejected assignment to the constant registry inside a wrapped
    handler is answered with status 500, a null payload and the message
    of the registry, which names the constant: both exceptions of
    message.py are [TypeError]s. *)
Theorem standard_resp_registry_error {args : Type}
    (func : args -> res exc value) (a : args)
    (self self' : gmap str value) (name : str) (v : value) (e : exc) :
  MsgConst.__setattr__ ucd self name v = (Raise e, self') ->
  func a = Raise e ->
  standard_resp func a =
    Ok (BodyStatus
          (error_envelope 500
             (if bool_decide (is_Some (self !! name))
              then lit "Can't change const." ++ name
              else lit "const name " ++ [34%N] ++ name ++ [34%N]
                     ++ lit " is not all supercase")
             VNone)
          500).
Proof.
  intros Hset Hraise. unfold standard_resp. rewrite Hraise.
  unfold MsgConst.__setattr__ in Hset.
  destruct (bool_decide (is_Some (self !! name))).
  - injection Hset as <- _. reflexivity.
  - destruct (negb (isupper ucd name)); [|discriminate Hset].
    injection Hset as <- _. reflexivity.
Qed.

End registry_errors.

Lemma standard_resp_registry_error_witness :
  standard_resp
    (fun _ : unit =>
       Raise (mk_exc ConstError (lit "Can't change const.APPLICATION_404") VNone)) tt =
    Ok (BodyStatus
          (error_envelope 500 (lit "Can't change const.APPLICATION_404") VNone) 500).
Proof.
  apply (standard_resp_registry_error ascii_ucd
           (fun _ : unit =>
              Raise (mk_exc ConstError (lit "Can't change const.APPLICATION_404") VNone))
           tt (snd (msg_const ascii_ucd)) (snd (msg_const ascii_ucd))
           (lit "APPLICATION_404") (VInt 404)
           (mk_exc ConstError (lit "Can't change const.APPLICATION_404") VNone));
    reflexivity.
Defined.

(** *** The constant registry over runs of assignments *)

Section MsgConst_runs.
Context (ucd : unicode_db).
Implicit Types (self : gmap str value) (name : str) (v : value).

Lemma isupper_fold_None (s : str) :
  fold_left (isupper_step ucd) s None = None.
Proof. by induction s. Qed.

Lemma isupper_fold (s : str) (cased : bool) :
  fold_left (isupper_step ucd) s (Some cased) =
    if existsb (lower_or_title ucd) s then None
    else Some (cased || existsb (Py_UNICODE_ISUPPER ucd) s).
Proof.
  revert cased. induction s as [|c s IH]; intros cased.
  - cbn. by rewrite orb_false_r.
  - cbn [fold_left existsb isupper_step]. unfold lower_or_title at 1.
    destruct (Py_UNICODE_ISLOWER ucd c || Py_UNICODE_ISTITLE ucd c).
    + cbn [orb]. apply isupper_fold_None.
    + cbn [orb].
      destruct cased, (Py_UNICODE_ISUPPER ucd c); cbn [negb andb orb];
        rewrite IH; reflexivity.
Qed.

(** [str.isupper]: no lower-case or title-case character and at least
    one upper-case character. *)
Lemma isupper_spec (s : str) :
  isupper ucd s =
    negb (existsb (lower_or_title ucd) s) && existsb (Py_UNICODE_ISUPPER ucd) s.
Proof.
  unfold isupper. rewrite isupper_fold.
  by destruct (existsb (lower_or_title ucd) s).
Qed.

(** X8. An assignment is accepted exactly when the name holds no
    value yet, has at least one upper-case letter and has no lower-case
    or title-case letter; so a name of digits and underscores alone is
    refused. *)
Theorem MsgConst_accepts_iff self name v :
  fst (MsgConst.__setattr__ ucd self name v) = Ok ()
  <-> self !! name = None
      /\ Exists (fun c => Py_UNICODE_ISUPPER ucd c = true) name
      /\ Forall (fun c => Py_UNICODE_ISLOWER ucd c = false
                          /\ Py_UNICODE_ISTITLE ucd c = false) name.
Proof.
  unfold MsgConst.__setattr__. rewrite isupper_spec.
  destruct (self !! name) as [v0|] eqn:Hl.
  - rewrite bool_decide_eq_true_2 by (by eexists). cbn [fst].
    split; [discriminate|]. by intros [? _].
  - rewrite bool_decide_eq_false_2 by (by intros [? ?]).
    destruct (existsb (lower_or_title ucd) name) eqn:Hbad;
      destruct (existsb (Py_UNICODE_ISUPPER ucd) name) eqn:Hup;
      cbn [negb andb fst]; (split; [try discriminate; intros _|try done]).
    + intros (_ & _ & Hall). exfalso.
      apply existsb_exists in Hbad as (c & Hc & Hbad).
      rewrite Forall_forall in Hall.
      destruct (Hall c) as [H1 H2]; [by apply list_elem_of_In|].
      unfold lower_or_title in Hbad. by rewrite H1, H2 in Hbad.
    + intros (_ & Hex & _). exfalso.
      apply Exists_exists in Hex as (c & Hc & Hcu).
      assert (existsb (Py_UNICODE_ISUPPER ucd) name = true); [|congruence].
      apply existsb_exists. exists c. split; [by apply list_elem_of_In|done].
    + split_and!; [done| |].
      * apply existsb_exists in Hup as (c & Hc & Hcu).
        apply Exists_exists. exists c. split; [by apply list_elem_of_In|done].
      * apply Forall_forall. intros c Hc.
        apply orb_false_iff. fold (lower_or_title ucd c).
        destruct (lower_or_title ucd c) eqn:Hb; [|done].
        assert (existsb (lower_or_title ucd) name = true); [|congruence].
        apply existsb_exists. exists c. split; [by apply list_elem_of_In|done].
    + intros (_ & Hex & _). exfalso.
      apply Exists_exists in Hex as (c & Hc & Hcu).
      assert (existsb (Py_UNICODE_ISUPPER ucd) name = true); [|congruence].
      apply existsb_exists. exists c. split; [by apply list_elem_of_In|done].
Qed.

(** X9. After any run of assignments, a name that held a value
    before the run holds it still, and any other name holds the value of
    its first assignment in the run when the name is upper-case, and
    nothing otherwise. *)
Theorem MsgConst_first_assignment_wins (ops : list (str * value)) self (k : str) :
  MsgConst.assign_all ucd ops self !! k =
    match self !! k with
    | Some v0 => Some v0
    | None => if isupper ucd k then dict_get ops k else None
    end.
Proof.
  revert self. induction ops as [|[name v] ops IH]; intros self.
  - cbn. destruct (self !! k); [done|]. by destruct (isupper ucd k).
  - unfold MsgConst.assign_all in *. cbn [fold_left fst snd]. rewrite IH.
    cbn [dict_get]. unfold MsgConst.__setattr__.
    destruct (bool_decide (is_Some (self !! name))) eqn:Htaken; cbn [snd].
    + apply bool_decide_eq_true in Htaken as [v0 Hv0].
      destruct (self !! k) eqn:Hk; [done|].
      rewrite bool_decide_eq_false_2; [done|]. intros ->. congruence.
    + apply bool_decide_eq_false in Htaken.
      assert (Hnone : self !! name = None).
      { destruct (self !! name) eqn:Hl; [|done]. destruct Htaken. by eexists. }
      destruct (isupper ucd name) eqn:Hup; cbn [negb snd].
      * destruct (decide (name = k)) as [->|Hne].
        -- rewrite lookup_insert_eq, Hnone, Hup.
           by rewrite bool_decide_eq_true_2.
        -- rewrite lookup_insert_ne by done.
           by rewrite bool_decide_eq_false_2.
      * destruct (self !! k) eqn:Hk; [done|].
        destruct (isupper ucd k) eqn:Hku; [|done].
        rewrite bool_decide_eq_false_2; [done|]. intros ->. congruence.
Qed.

(** X10. If every name of the registry is upper-case, then so is
    every name after any run of assignments. *)
Theorem MsgConst_keys_upper (ops : list (str * value)) (self : gmap str value)
    (k : str) :
  (forall k', is_Some (self !! k') -> isupper ucd k' = true) ->
  is_Some (MsgConst.assign_all ucd ops self !! k) -> isupper ucd k = true.
Proof.
  revert self. induction ops as [|[name v] ops IH]; intros self Hinv; [apply Hinv|].
  unfold MsgConst.assign_all in *. cbn [fold_left fst snd].
  apply IH. intros k'.
  destruct (MsgConst.__setattr__ ucd self name v) as [[[]|e] self'] eqn:Hset;
    cbn [snd].
  - apply setattr_ok_inv in Hset as (Hnone & Hup & ->).
    destruct (decide (name = k')) as [->|Hne]; [done|].
    rewrite lookup_insert_ne by done. apply Hinv.
  - apply setattr_raise_unchanged in Hset as ->. apply Hinv.
Qed.

End MsgConst_runs.

Lemma MsgConst_keys_upper_witness :
  is_Some (MsgConst.assign_all ascii_ucd
             [(lit "max_jobs", VInt 1); (lit "MAX_JOBS", VInt 2);
              (lit "MAX_JOBS", VInt 3)] ∅ !! lit "MAX_JOBS")
  /\ isupper ascii_ucd (lit "MAX_JOBS") = true.
Proof.
  assert (Hk : is_Some (MsgConst.assign_all ascii_ucd
                          [(lit "max_jobs", VInt 1); (lit "MAX_JOBS", VInt 2);
                           (lit "MAX_JOBS", VInt 3)] ∅ !! lit "MAX_JOBS")).
  { exists (VInt 2). reflexivity. }
  split; [exact Hk|].
  apply (MsgConst_keys_upper ascii_ucd
           [(lit "max_jobs", VInt 1); (lit "MAX_JOBS", VInt 2);
            (lit "MAX_JOBS", VInt 3)] ∅ (lit "MAX_JOBS")); [|exact Hk].
  intros k' [v Hv]. rewrite lookup_empty in Hv. discriminate Hv.
Defined.

(** *** The serializer: dictionaries, lists and single records *)

(** X11. The mapping of a row has every column name once; when several
    columns of the row have the same name, the name holds the value,
    converted when it is a datetime, a date or a time, of the last of
    them. *)
Theorem row_to_dict_last_column_wins (keys : list str) (vals : list value) :
  exists d,
    Serializer.row_to_dict (VRow keys vals) = Ok (VDict d)
    /\ NoDup (map fst d)
    /\ forall k, dict_get d k = dict_get (rev (zip keys (map converted vals))) k.
Proof.
  rewrite row_to_dict_converted.
  eexists. split; [reflexivity|]. split; [apply dict_keys_NoDup|].
  intros k. apply dict_get_dict.
Qed.

(** X12. A non-empty dictionary given to [as_dict] goes down the
    raw-row path, which iterates over its keys: the result maps every
    key to the key itself, and the values are lost. *)
Theorem as_dict_plain_dict (d : list (str * value)) :
  d <> [] -> NoDup (map fst d) ->
  Serializer.as_dict (VDict d) =
    Ok (VDict (map (fun kv => (fst kv, VStr (fst kv))) d)).
Proof.
  intros Hne Hnd. unfold Serializer.as_dict. cbn [truthy].
  destruct d as [|kv d]; [done|].
  unfold Serializer.row_to_dict.
  cbn [Serializer.keys_and_items mbind res_bind].
  do 2 f_equal.
  set (items := kv :: d) in *.
  rewrite map_map. cbn [Serializer.in_time_type].
  assert (Hzip : zip (map fst items) (map (fun x => VStr (fst x)) items)
                 = map (fun kv => (fst kv, VStr (fst kv))) items).
  { clear. induction items as [|x items IH]; [done|]. cbn. by rewrite IH. }
  rewrite Hzip. apply dict_NoDup. rewrite map_map. cbn [fst]. exact Hnd.
Qed.

Lemma as_dict_plain_dict_witness :
  Serializer.as_dict (VDict [(lit "id", VInt 7); (lit "name", VStr (lit "ann"))]) =
    Ok (VDict [(lit "id", VStr (lit "id")); (lit "name", VStr (lit "name"))]).
Proof.
  apply (as_dict_plain_dict [(lit "id", VInt 7); (lit "name", VStr (lit "ann"))]).
  - discriminate.
  - apply (bool_decide_unpack _). vm_compute. exact I.
Defined.

Lemma res_traverse_length {E A B} (f : A -> res E B) (l : list A) (bs : list B) :
  res_traverse f l = Ok bs -> length bs = length l.
Proof.
  revert bs. induction l as [|a l IH]; intros bs; cbn [res_traverse].
  - by intros [= <-].
  - destruct (f a) as [b|e]; [|done]. cbn [mbind res_bind].
    destruct (res_traverse f l) as [bs'|e]; [|done]. cbn [mbind res_bind].
    intros [= <-]. cbn. f_equal. by apply IH.
Qed.

Lemma res_traverse_Forall {E A B} (f : A -> res E B) (P : B -> Prop)
    (l : list A) (bs : list B) :
  (forall a b, f a = Ok b -> P b) ->
  res_traverse f l = Ok bs -> Forall P bs.
Proof.
  intros Hf. revert bs. induction l as [|a l IH]; intros bs; cbn [res_traverse].
  - intros [= <-]. constructor.
  - destruct (f a) as [b|e] eqn:Hb; [|done]. cbn [mbind res_bind].
    destruct (res_traverse f l) as [bs'|e]; [|done]. cbn [mbind res_bind].
    intros [= <-]. constructor; [by eapply Hf|by apply IH].
Qed.

Lemma row_to_dict_is_dict (r m : value) :
  Serializer.row_to_dict r = Ok m -> is_dict m = true.
Proof.
  unfold Serializer.row_to_dict.
  destruct (Serializer.keys_and_items r) as [[keys vals]|e]; [|done].
  cbn [mbind res_bind]. by intros [= <-].
Qed.

Lemma entity_to_dict_is_dict (x m : value) :
  entity_to_dict x = Ok m -> is_dict m = true.
Proof.
  unfold entity_to_dict.
  destruct (Serializer.model_to_dict x) as [g|e]; [|done].
  cbn [fmap res_fmap]. by intros [= <-].
Qed.

(** X13. Whenever [as_dict] returns for a list, the result is a list
    of as many dictionaries as the input has elements. *)
Theorem as_dict_list_shape (l : list value) (r : value) :
  Serializer.as_dict (VList l) = Ok r ->
  exists ms, r = VList ms /\ length ms = length l
             /\ Forall (fun m => is_dict m = true) ms.
Proof.
  destruct l as [|first rest]; [intros [= <-]; by exists []|].
  unfold Serializer.as_dict.
  destruct (Serializer.isinstance_Model first).
  - rewrite models_loop_traverse.
    destruct (res_traverse entity_to_dict (first :: rest)) as [ms|e] eqn:Hms;
      [|done].
    cbn [fmap res_fmap app]. intros [= <-]. exists ms. split_and!; [done| |].
    + by eapply res_traverse_length.
    + eapply res_traverse_Forall; [|done]. apply entity_to_dict_is_dict.
  - unfold Serializer.result_to_dict.
    destruct (res_traverse Serializer.row_to_dict (first :: rest)) as [ms|e] eqn:Hms;
      [|done].
    cbn [fmap res_fmap]. intros [= <-]. exists ms. split_and!; [done| |].
    + by eapply res_traverse_length.
    + eapply res_traverse_Forall; [|done]. apply row_to_dict_is_dict.
Qed.

Lemma as_dict_list_shape_witness :
  exists ms,
    VList [VDict [(lit "id", VInt 1)]; VDict []] = VList ms
    /\ length ms = length [VRow [lit "id"] [VInt 1]; VRow [] []]
    /\ Forall (fun m => is_dict m = true) ms.
Proof.
  apply (as_dict_list_shape [VRow [lit "id"] [VInt 1]; VRow [] []]
           (VList [VDict [(lit "id", VInt 1)]; VDict []])).
  reflexivity.
Defined.

Lemma res_traverse_ext {E A B} (f g : A -> res E B) (l : list A) :
  Forall (fun a => f a = g a) l -> res_traverse f l = res_traverse g l.
Proof.
  induction 1 as [|a l Ha _ IH]; [done|].
  cbn [res_traverse]. by rewrite Ha, IH.
Qed.

(** X14. On a list of entities, and on a list of records none of which
    is an entity, a list or falsy, [as_dict] gives the list of what it
    gives for each element alone. *)
Theorem as_dict_list_elementwise (l : list value) :
  Forall (fun x => Serializer.isinstance_Model x = true) l
  \/ Forall (fun x => Serializer.isinstance_Model x = false
                      /\ one_record x = true) l ->
  Serializer.as_dict (VList l) = VList <$> res_traverse Serializer.as_dict l.
Proof.
  intros Hl. destruct l as [|first rest]; [done|].
  unfold Serializer.as_dict at 1.
  destruct Hl as [Hl|Hl].
  - pose proof (Forall_inv Hl) as Hfirst. cbn beta in Hfirst. rewrite Hfirst.
    rewrite models_loop_traverse.
    rewrite (res_traverse_ext entity_to_dict Serializer.as_dict).
    + by destruct (res_traverse Serializer.as_dict (first :: rest)).
    + eapply Forall_impl; [exact Hl|]. intros x Hx. by destruct x.
  - pose proof (Forall_inv Hl) as [Hfirst _]. rewrite Hfirst.
    unfold Serializer.result_to_dict.
    rewrite (res_traverse_ext Serializer.row_to_dict Serializer.as_dict); [done|].
    eapply Forall_impl; [exact Hl|]. intros x [Hm Hx].
    destruct x; try discriminate Hm; try discriminate Hx;
      cbn [one_record] in Hx; unfold Serializer.as_dict; by rewrite Hx.
Qed.

Lemma as_dict_list_elementwise_witness :
  Serializer.as_dict (VList [VRow [lit "id"] [VInt 1]; VRow [lit "id"] [VInt 2]]) =
    VList <$> res_traverse Serializer.as_dict
                [VRow [lit "id"] [VInt 1]; VRow [lit "id"] [VInt 2]].
Proof.
  apply (as_dict_list_elementwise
           [VRow [lit "id"] [VInt 1]; VRow [lit "id"] [VInt 2]]).
  right. repeat constructor.
Defined.

(** *** The serializer: the entity path *)

Lemma convert_datetime_written (v : value) :
  Serializer.convert_datetime v =
    match v with
    | VDatetime dt => VStr (written_datetime dt)
    | VDate d => VStr (written_date d)
    | VTime t => VStr (written_time t)
    | _ => VNone
    end.
Proof.
  destruct v; cbn [Serializer.convert_datetime]; try reflexivity.
  - by rewrite strftime_datetime.
  - by rewrite strftime_date.
  - by rewrite strftime_time.
Qed.

Lemma convert_datetime_text (v : value) :
  temporal_valid v = true -> Serializer.convert_datetime v = temporal_text v.
Proof.
  rewrite convert_datetime_written.
  destruct v; cbn [temporal_valid temporal_text]; try reflexivity.
  - intros [Hd Ht]%andb_true_iff. by rewrite written_datetime_format.
  - intros Hd. by rewrite written_date_format.
  - intros Ht. by rewrite written_time_format.
Qed.

Lemma field_mapping_get (columns : list Column) (attrs : list (str * value))
    (col : Column) :
  NoDup (map col_name columns) -> col ∈ columns ->
  exists d, field_mapping columns attrs = VDict d
            /\ dict_get d (col_name col) = Some (rendered attrs col).
Proof.
  intros Hnd Hcol. unfold field_mapping. eexists. split; [reflexivity|].
  assert (Hnd' : NoDup (map fst (map (fun col => (col_name col, rendered attrs col))
                                     columns))).
  { by rewrite map_map. }
  rewrite (dict_NoDup _ Hnd').
  apply dict_get_NoDup; [done|].
  apply list_elem_of_fmap. by exists col.
Qed.

(** X15. What a DateTime column of an entity is rendered as depends on
    the runtime type of its value: a datetime, a date or a time of the
    year 1000 or later gives the string of its format, and any other
    value, NULL as well as a string or a number, gives [None]. *)
Theorem as_dict_DateTime_column_by_value (columns : list Column)
    (attrs : list (str * value)) (col : Column) (v : value) :
  NoDup (map col_name columns) ->
  forallb (readable attrs) columns = true ->
  col ∈ columns ->
  isinstance_DateTime (col_type col) = true ->
  dict_get attrs (col_name col) = Some v ->
  temporal_valid v = true ->
  exists d,
    Serializer.as_dict (VModel columns attrs) = Ok (VDict d)
    /\ dict_get d (col_name col) = Some (temporal_text v).
Proof.
  intros Hnd Hr Hcol Hdt Hv Hvalid.
  destruct (field_mapping_get columns attrs col Hnd Hcol) as (d & Hd & Hget).
  exists d. split.
  - rewrite as_dict_entity by done. by rewrite Hd.
  - rewrite Hget. unfold rendered. rewrite Hv, Hdt.
    by rewrite convert_datetime_text.
Qed.

Lemma as_dict_DateTime_column_by_value_witness :
  exists d,
    Serializer.as_dict
      (VModel [mk_column (lit "id") sa.Integer; mk_column (lit "seen") sa.DateTime]
              [(lit "id", VInt 1); (lit "seen", VStr (lit "yesterday"))]) = Ok (VDict d)
    /\ dict_get d (lit "seen") = Some VNone.
Proof.
  apply (as_dict_DateTime_column_by_value
           [mk_column (lit "id") sa.Integer; mk_column (lit "seen") sa.DateTime]
           [(lit "id", VInt 1); (lit "seen", VStr (lit "yesterday"))]
           (mk_column (lit "seen") sa.DateTime) (VStr (lit "yesterday"))).
  - apply (bool_decide_unpack _). vm_compute. exact I.
  - reflexivity.
  - right. left.
  - reflexivity.
  - reflexivity.
  - reflexivity.
Defined.

Lemma column_item_name (attrs : list (str * value)) (col : Column) (kv : str * value) :
  Serializer.column_item attrs col = Ok kv -> fst kv = col_name col.
Proof.
  unfold Serializer.column_item.
  destruct (isinstance_DateTime _); [|destruct (isinstance_Numeric _)];
    destruct (Serializer.getattr attrs (col_name col)) as [v|e];
    cbn [mbind res_bind]; try done; try (by intros [= <-]).
  destruct (py_float v); cbn [mbind res_bind]; [by intros [= <-]|done].
Qed.

Lemma model_to_dict_names (columns : list Column) (attrs : list (str * value))
    (g : list (str * value)) :
  res_traverse (Serializer.column_item attrs) columns = Ok g ->
  map fst g = map col_name columns.
Proof.
  revert g. induction columns as [|col columns IH]; intros g; cbn [res_traverse].
  - by intros [= <-].
  - destruct (Serializer.column_item attrs col) as [kv|e] eqn:Hkv; [|done].
    cbn [mbind res_bind].
    destruct (res_traverse _ columns) as [g'|e]; [|done]. cbn [mbind res_bind].
    intros [= <-]. cbn [map]. f_equal; [by eapply column_item_name|by apply IH].
Qed.

(** X16. The mapping of an entity has exactly the names of the columns
    of its table as keys, in column order: an attribute that is no
    column is left out. *)
Theorem as_dict_entity_keys (columns : list Column) (attrs : list (str * value))
    (r : value) :
  NoDup (map col_name columns) ->
  Serializer.as_dict (VModel columns attrs) = Ok r ->
  exists d, r = VDict d
            /\ map fst d = map col_name columns
            /\ forall k, k ∉ map col_name columns -> dict_get d k = None.
Proof.
  intros Hnd. unfold Serializer.as_dict. cbn [Serializer.model_to_dict].
  destruct (res_traverse _ columns) as [g|e] eqn:Hg; [|done].
  cbn [fmap res_fmap]. intros [= <-].
  apply model_to_dict_names in Hg.
  rewrite dict_NoDup by (by rewrite Hg).
  exists g. split_and!; [done..|].
  intros k Hk. apply dict_get_None. by rewrite Hg.
Qed.

Lemma as_dict_entity_keys_witness :
  exists d,
    VDict [(lit "id", VInt 7)] = VDict d
    /\ map fst d = map col_name [mk_column (lit "id") sa.Integer]
    /\ forall k, k ∉ map col_name [mk_column (lit "id") sa.Integer] ->
                 dict_get d k = None.
Proof.
  apply (as_dict_entity_keys [mk_column (lit "id") sa.Integer]
           [(lit "id", VInt 7); (lit "password", VStr (lit "x"))]
           (VDict [(lit "id", VInt 7)])).
  - apply (bool_decide_unpack _). vm_compute. exact I.
  - reflexivity.
Defined.

Lemma column_item_Ok_readable (attrs : list (str * value)) (col : Column)
    (kv : str * value) :
  Serializer.column_item attrs col = Ok kv -> readable attrs col = true.
Proof.
  unfold Serializer.column_item, Serializer.getattr, readable.
  destruct (dict_get attrs (col_name col)) as [v|].
  - destruct (isinstance_DateTime _); [done|].
    destruct (isinstance_Numeric _); [|done].
    cbn [mbind res_bind]. by destruct (py_float v).
  - by destruct (isinstance_DateTime (col_type col)),
                (isinstance_Numeric (col_type col)).
Qed.

Lemma as_dict_entity_Ok_readable (columns : list Column) (attrs : list (str * value))
    (r : value) :
  Serializer.as_dict (VModel columns attrs) = Ok r ->
  forallb (readable attrs) columns = true.
Proof.
  intros Hr. unfold Serializer.as_dict in Hr.
  cbn [Serializer.model_to_dict] in Hr.
  destruct (res_traverse _ columns) as [g|e] eqn:Hg; [|done]. clear Hr.
  revert g Hg. induction columns as [|col columns IH]; intros g; [done|].
  cbn [res_traverse forallb].
  destruct (Serializer.column_item attrs col) as [kv|e] eqn:Hkv; [|done].
  cbn [mbind res_bind].
  destruct (res_traverse _ columns) as [g'|e]; [|done]. intros _.
  rewrite (column_item_Ok_readable _ _ _ Hkv). by eapply IH.
Qed.

(** X17. [as_dict] returns for an entity exactly when every column can
    be read: its attribute is there, and a Numeric column holds a value
    [float] accepts. *)
Theorem as_dict_entity_ok_iff (columns : list Column) (attrs : list (str * value)) :
  (exists r, Serializer.as_dict (VModel columns attrs) = Ok r)
  <-> forallb (readable attrs) columns = true.
Proof.
  split.
  - intros [r Hr]. by eapply as_dict_entity_Ok_readable.
  - intros Hr. eexists. by apply as_dict_entity.
Qed.

(** *** The serializer: the texts of dates and times *)

Lemma all_digits_pad (w : nat) (n : N) : all_digits (pad w n).
Proof.
  unfold pad, zfill, N_repr. apply Forall_app. split.
  - apply Forall_forall. intros c Hc. apply elem_of_replicate in Hc as [-> _]. done.
  - apply all_digits_uint_chars.
Qed.

Lemma int_of_digits_pad (w : nat) (n : N) : int_of_digits (pad w n) = n.
Proof.
  unfold pad, zfill.
  induction (w - length (N_repr n))%nat as [|k IH].
  - apply int_of_digits_N_repr.
  - cbn [replicate app].
    transitivity (int_of_digits (replicate k (digit_char 0) ++ N_repr n));
      [reflexivity|exact IH].
Qed.

Lemma pad_inj (w w' : nat) (a b : N) : pad w a = pad w' b -> a = b.
Proof.
  intros H. rewrite <- (int_of_digits_pad w a), <- (int_of_digits_pad w' b).
  by rewrite H.
Qed.

Lemma digits_app_inj (ds1 ds2 r1 r2 : str) :
  all_digits ds1 -> all_digits ds2 ->
  number_end r1 = true -> number_end r2 = true ->
  ds1 ++ r1 = ds2 ++ r2 -> ds1 = ds2 /\ r1 = r2.
Proof.
  intros H1 H2 Hr1 Hr2 Heq.
  pose proof (span_digits_app ds1 r1 H1 Hr1) as Hs1.
  pose proof (span_digits_app ds2 r2 H2 Hr2) as Hs2.
  rewrite Heq in Hs1. rewrite Hs1 in Hs2. by injection Hs2.
Qed.

Lemma pad_app_inj (w w' : nat) (a b : N) (r1 r2 : str) :
  number_end r1 = true -> number_end r2 = true ->
  pad w a ++ r1 = pad w' b ++ r2 -> a = b /\ r1 = r2.
Proof.
  intros Hr1 Hr2 Heq.
  destruct (digits_app_inj _ _ _ _ (all_digits_pad w a) (all_digits_pad w' b)
              Hr1 Hr2 Heq) as [Hp Hr].
  split; [by eapply pad_inj|done].
Qed.

Lemma written_time_inj (t1 t2 : time_t) :
  written_time t1 = written_time t2 ->
  hour t1 = hour t2 /\ minute t1 = minute t2 /\ second t1 = second t2.
Proof.
  unfold written_time. change (lit ":") with [58%N]. cbn [app].
  intros H.
  apply pad_app_inj in H as [Hh H]; [|done..]. injection H as H.
  apply pad_app_inj in H as [Hm H]; [|done..]. injection H as H.
  apply pad_inj in H. done.
Qed.

(** The year is written without padding; the hyphen after it ends
    it. *)
Lemma written_date_app_inj (d1 d2 : date_t) (r1 r2 : str) :
  number_end r1 = true -> number_end r2 = true ->
  written_date d1 ++ r1 = written_date d2 ++ r2 -> d1 = d2 /\ r1 = r2.
Proof.
  unfold written_date. change (lit "-") with [45%N]. intros Hr1 Hr2.
  change (N_repr (year d1)) with (pad 0 (year d1)).
  change (N_repr (year d2)) with (pad 0 (year d2)).
  rewrite <- !app_assoc. cbn [app]. intros H.
  apply pad_app_inj in H as [Hy H]; [|done..]. injection H as H.
  apply pad_app_inj in H as [Hm H]; [|done..]. injection H as H.
  apply pad_app_inj in H as [Hd H]; [|done..].
  destruct d1, d2; cbn in *. by subst.
Qed.

(** X18. Two datetimes are rendered as the same string exactly when
    they agree on the date and on the hour, minute and second: the
    microseconds, and nothing else, are lost. *)
Theorem convert_datetime_same_text (dt1 dt2 : datetime_t) :
  Serializer.convert_datetime (VDatetime dt1)
    = Serializer.convert_datetime (VDatetime dt2)
  <-> dt_date dt1 = dt_date dt2
      /\ hour (dt_time dt1) = hour (dt_time dt2)
      /\ minute (dt_time dt1) = minute (dt_time dt2)
      /\ second (dt_time dt1) = second (dt_time dt2).
Proof.
  rewrite !convert_datetime_written. unfold written_datetime.
  split.
  - intros [= H]. change (lit " ") with [32%N] in H.
    apply written_date_app_inj in H as [Hd H]; [|done..].
    injection H as H. apply written_time_inj in H. done.
  - intros (-> & Hh & Hm & Hs). unfold written_time. by rewrite Hh, Hm, Hs.
Qed.

(** X19. From the year 1000 on, the string of a datetime has 19
    characters, that of a date 10 and that of a time 8. *)
Theorem convert_datetime_width (v : value) :
  match v with
  | VDatetime dt => valid_date (dt_date dt) && valid_time (dt_time dt)
  | VDate d => valid_date d
  | VTime t => valid_time t
  | _ => false
  end = true ->
  exists s,
    Serializer.convert_datetime v = VStr s
    /\ length s = match v with
                  | VDatetime _ => 19%nat
                  | VDate _ => 10%nat
                  | _ => 8%nat
                  end.
Proof.
  intros Hv. rewrite convert_datetime_written.
  destruct v; try discriminate Hv; (eexists; split; [reflexivity|]).
  - apply andb_true_iff in Hv as [Hd Ht].
    by rewrite written_datetime_format.
  - by rewrite written_date_format.
  - by rewrite written_time_format.
Qed.

Lemma convert_datetime_width_witness :
  exists s,
    Serializer.convert_datetime
      (VDatetime (mk_datetime (mk_date 2023 5 1) (mk_time 9 3 7 250000))) = VStr s
    /\ length s = 19%nat.
Proof.
  apply (convert_datetime_width
           (VDatetime (mk_datetime (mk_date 2023 5 1) (mk_time 9 3 7 250000)))).
  reflexivity.
Defined.

(** *** The serializer inside a wrapped handler *)

















